(** * pkg/cmd/extension/http.go: the REST helpers of the extension manager

    A shallow embedding of the five helpers of [http.go] ([hasScript],
    [downloadAsset], [fetchLatestRelease], [fetchReleaseFromTag],
    [fetchCommitSHA]) together with the parts of their environment that
    decide what they return: the HTTP client, [encoding/json]'s decoder
    into the [release] struct, and the file operations used by the download.

    Go values are represented as follows.
    - [string] is a Go string (a sequence of bytes), [list byte] a [[]byte];
    - [int] is [Z] (status codes are only compared, never computed with);
    - a value of interface type [error] is [option error], [None] being nil;
    - a [*release] result is [option release], [None] being the nil pointer;
    - [http.Header] and the file system are finite maps. *)

From Stdlib Require Import ZArith NArith Strings.String Strings.Byte Strings.Ascii Lia.
From stdpp Require Import base option list gmap strings.

Local Open Scope string_scope.
Local Open Scope Z_scope.

(** ** encoding/json: the syntax checker

    [json.Unmarshal] first runs [checkValid] over the whole input and only
    then decodes. [checkValid] drives the byte-at-a-time automaton of
    [scanner.go]; the automaton below has the same states and the same
    transitions, and in addition keeps the literal read so far and the
    partly built arrays and objects, so that accepting an input yields the
    value it denotes. *)

#[warnings="-register-all"]
Inductive json : Type :=
| JNull
| JBool (b : bool)
| JNumber (lit : string)
| JString (s : string)
| JArray (elems : list json)
| JObject (members : list (string * json)).

Definition code (c : byte) : N := Byte.to_N c.

Definition between (lo hi c : byte) : bool :=
  ((code lo <=? code c) && (code c <=? code hi))%N.

Definition chr (n : N) : byte := default x00 (Byte.of_N n).

(** [isSpace]: space, tab, carriage return, line feed. *)
Definition isSpace (c : byte) : bool :=
  match c with
  | x20 | x09 | x0d | x0a => true
  | _ => false
  end.

Definition isDigit (c : byte) : bool := between "0" "9" c.

Definition isHex (c : byte) : bool :=
  between "0" "9" c || between "a" "f" c || between "A" "F" c.

(** *** Strings: [unquoteBytes] *)

(** [utf8.EncodeRune]. *)
Definition EncodeRune (r : N) : list byte :=
  (if r <=? 0x7F then [chr r]
   else if r <=? 0x7FF then
     [chr (N.lor 0xC0 (N.shiftr r 6)); chr (N.lor 0x80 (N.land r 0x3F))]
   else if (0x10FFFF <? r) || ((0xD800 <=? r) && (r <=? 0xDFFF)) then
     [xef; xbf; xbd]
   else if r <=? 0xFFFF then
     [chr (N.lor 0xE0 (N.shiftr r 12));
      chr (N.lor 0x80 (N.land (N.shiftr r 6) 0x3F));
      chr (N.lor 0x80 (N.land r 0x3F))]
   else
     [chr (N.lor 0xF0 (N.shiftr r 18));
      chr (N.lor 0x80 (N.land (N.shiftr r 12) 0x3F));
      chr (N.lor 0x80 (N.land (N.shiftr r 6) 0x3F));
      chr (N.lor 0x80 (N.land r 0x3F))])%N.

(** [unicode.ReplacementChar], U+FFFD, as [EncodeRune] writes it. *)
Definition replacement : list byte := [xef; xbf; xbd].

(** The width of the well-formed UTF-8 sequence that starts with [c] and
    goes on with [r]; [O] when [utf8.DecodeRune] answers
    [(RuneError, 1)]. The ranges are those of [utf8.first] and
    [utf8.acceptRanges]. *)
Definition cont (lo hi : byte) (r : list byte) (i : nat) : bool :=
  match r !! i with
  | Some b => between lo hi b
  | None => false
  end.

Definition utf8_width (c : byte) (r : list byte) : nat :=
  if between xc2 xdf c then
    if cont x80 xbf r 0 then 2%nat else O
  else if between xe0 xef c then
    let lo := if Byte.eqb c xe0 then xa0 else x80 in
    let hi := if Byte.eqb c xed then x9f else xbf in
    if cont lo hi r 0 && cont x80 xbf r 1 then 3%nat else O
  else if between xf0 xf4 c then
    let lo := if Byte.eqb c xf0 then x90 else x80 in
    let hi := if Byte.eqb c xf4 then x8f else xbf in
    if cont lo hi r 0 && cont x80 xbf r 1 && cont x80 xbf r 2 then 4%nat
    else O
  else O.

Definition hexval (c : byte) : N :=
  (if between "0" "9" c then code c - code "0"
   else if between "a" "f" c then code c - code "a" + 10
   else code c - code "A" + 10)%N.

(** [getu4] on the four bytes that follow a backslash and a [u]. *)
Definition hex4 (a b c d : byte) : option N :=
  if isHex a && isHex b && isHex c && isHex d then
    Some (((hexval a * 16 + hexval b) * 16 + hexval c) * 16 + hexval d)%N
  else None.

(** [getu4] on a whole slice. *)
Definition getu4 (s : list byte) : option N :=
  match s with
  | x5c :: "u"%byte :: a :: b :: c :: d :: _ => hex4 a b c d
  | _ => None
  end.

(** [utf16.IsSurrogate] and [utf16.DecodeRune]. *)
Definition IsSurrogate (r : N) : bool := ((0xD800 <=? r) && (r <? 0xE000))%N.

Definition DecodeRune16 (r1 : N) (r2 : option N) : option N :=
  match r2 with
  | Some r2 =>
      if ((0xD800 <=? r1) && (r1 <? 0xDC00) && (0xDC00 <=? r2) && (r2 <? 0xE000))%N
      then Some (N.lor (N.shiftl (r1 - 0xD800) 10) (r2 - 0xDC00) + 0x10000)%N
      else None
  | None => None
  end.

(** [unquoteBytes] on the bytes between the two quotes. [None] is its
    [ok = false]. *)
Fixpoint unquote (s : list byte) : option (list byte) :=
  match s with
  | [] => Some []
  | c :: r =>
    if Byte.eqb c x5c then
      match r with
      | [] => None
      | e :: r1 =>
        match e with
        | x22 | x5c | "/"%byte | "'"%byte => cons e <$> unquote r1
        | "b"%byte => cons x08 <$> unquote r1
        | "f"%byte => cons x0c <$> unquote r1
        | "n"%byte => cons x0a <$> unquote r1
        | "r"%byte => cons x0d <$> unquote r1
        | "t"%byte => cons x09 <$> unquote r1
        | "u"%byte =>
          match r1 with
          | h1 :: h2 :: h3 :: h4 :: r2 =>
            match hex4 h1 h2 h3 h4 with
            | None => None
            | Some rr =>
              if IsSurrogate rr then
                match DecodeRune16 rr (getu4 r2), r2 with
                | Some dec, _ :: _ :: _ :: _ :: _ :: _ :: r3 =>
                    app (EncodeRune dec) <$> unquote r3
                | _, _ => app replacement <$> unquote r2
                end
              else app (EncodeRune rr) <$> unquote r2
            end
          | _ => None
          end
        | _ => None
        end
      end
    else if Byte.eqb c x22 || (code c <? 0x20)%N then None
    else if (code c <? 0x80)%N then cons c <$> unquote r
    else
      match utf8_width c r, r with
      | 2%nat, b1 :: r1 => app [c; b1] <$> unquote r1
      | 3%nat, b1 :: b2 :: r2 => app [c; b1; b2] <$> unquote r2
      | 4%nat, b1 :: b2 :: b3 :: r3 => app [c; b1; b2; b3] <$> unquote r3
      | _, _ => app replacement <$> unquote r
      end
  end.

(** *** The scanner *)

(** The entries of [scanner.parseState], each with what has been read of
    the composite value it stands for (newest first). *)
Inductive frame : Type :=
| parseObjectKey (members : list (string * json))
| parseObjectValue (members : list (string * json)) (key : string)
| parseArrayValue (elems : list json).

(** The step functions of [scanner.go]. States inside a literal carry its
    bytes read so far, newest first; [stateEndValue] and [stateEndTop]
    carry the value just completed. *)
Inductive state : Type :=
| stateBeginValueOrEmpty
| stateBeginValue
| stateBeginStringOrEmpty
| stateBeginString
| stateEndValue (v : json)
| stateEndTop (v : json)
| stateInString (lit : list byte)
| stateInStringEsc (lit : list byte)
| stateInStringEscU (lit : list byte)
| stateInStringEscU1 (lit : list byte)
| stateInStringEscU12 (lit : list byte)
| stateInStringEscU123 (lit : list byte)
| stateNeg (lit : list byte)
| state1 (lit : list byte)
| state0 (lit : list byte)
| stateDot (lit : list byte)
| stateDot0 (lit : list byte)
| stateE (lit : list byte)
| stateESign (lit : list byte)
| stateE0 (lit : list byte)
| stateT | stateTr | stateTru
| stateF | stateFa | stateFal | stateFals
| stateN | stateNu | stateNul.

Record scanner : Type := Scanner { step : state; parseState : list frame }.

Definition maxNestingDepth : Z := 10000.

(** [pushParseState]: fails with "exceeded max depth". *)
Definition pushParseState (f : frame) (stack : list frame) (next : state)
  : option scanner :=
  if Z.of_nat (length (f :: stack)) <=? maxNestingDepth
  then Some (Scanner next (f :: stack))
  else None.

(** [popParseState], delivering the composite value [v] just closed. *)
Definition popParseState (v : json) (rest : list frame) : scanner :=
  match rest with
  | [] => Scanner (stateEndTop v) []
  | _ => Scanner (stateEndValue v) rest
  end.

(** [stateEndValue] after the value [v]: the byte [c] follows it. *)
Definition endValue (v : json) (stack : list frame) (c : byte)
  : option scanner :=
  match stack with
  | [] => if isSpace c then Some (Scanner (stateEndTop v) []) else None
  | f :: rest =>
    if isSpace c then Some (Scanner (stateEndValue v) stack)
    else
      match f with
      | parseObjectKey ms =>
        match c, v with
        | ":"%byte, JString k =>
            Some (Scanner stateBeginValue (parseObjectValue ms k :: rest))
        | _, _ => None
        end
      | parseObjectValue ms k =>
        match c with
        | ","%byte =>
            Some (Scanner stateBeginString (parseObjectKey ((k, v) :: ms) :: rest))
        | "}"%byte => Some (popParseState (JObject (rev ((k, v) :: ms))) rest)
        | _ => None
        end
      | parseArrayValue es =>
        match c with
        | ","%byte => Some (Scanner stateBeginValue (parseArrayValue (v :: es) :: rest))
        | "]"%byte => Some (popParseState (JArray (rev (v :: es))) rest)
        | _ => None
        end
      end
  end.

Definition number (lit : list byte) : json :=
  JNumber (string_of_list_byte (rev lit)).

(** [stateBeginValue] on a byte that is not a space. *)
Definition beginValue (stack : list frame) (c : byte) : option scanner :=
  match c with
  | "{"%byte => pushParseState (parseObjectKey []) stack stateBeginStringOrEmpty
  | "["%byte => pushParseState (parseArrayValue []) stack stateBeginValueOrEmpty
  | x22 => Some (Scanner (stateInString []) stack)
  | "-"%byte => Some (Scanner (stateNeg [c]) stack)
  | "0"%byte => Some (Scanner (state0 [c]) stack)
  | "t"%byte => Some (Scanner stateT stack)
  | "f"%byte => Some (Scanner stateF stack)
  | "n"%byte => Some (Scanner stateN stack)
  | _ => if between "1" "9" c then Some (Scanner (state1 [c]) stack) else None
  end.

(** One call [s.step(s, c)]; [None] is [scanError]. *)
Definition scan (s : scanner) (c : byte) : option scanner :=
  let stack := parseState s in
  let goto st := Some (Scanner st stack) in
  let expect (want : byte) st := if Byte.eqb c want then goto st else None in
  let zero lit :=
    match c with
    | "."%byte => goto (stateDot (c :: lit))
    | "e"%byte | "E"%byte => goto (stateE (c :: lit))
    | _ => endValue (number lit) stack c
    end in
  let esign lit := if isDigit c then goto (stateE0 (c :: lit)) else None in
  match step s with
  | stateBeginValueOrEmpty =>
    if isSpace c then Some s
    else if Byte.eqb c "]" then
      match stack with
      | parseArrayValue es :: rest => Some (popParseState (JArray (rev es)) rest)
      | _ => None
      end
    else beginValue stack c
  | stateBeginValue => if isSpace c then Some s else beginValue stack c
  | stateBeginStringOrEmpty =>
    if isSpace c then Some s
    else if Byte.eqb c "}" then
      match stack with
      | parseObjectKey ms :: rest => Some (popParseState (JObject (rev ms)) rest)
      | _ => None
      end
    else expect x22 (stateInString [])
  | stateBeginString =>
    if isSpace c then Some s else expect x22 (stateInString [])
  | stateEndValue v => endValue v stack c
  | stateEndTop v => if isSpace c then Some s else None
  | stateInString lit =>
    if Byte.eqb c x22 then
      match unquote (rev lit) with
      | Some bs => goto (stateEndValue (JString (string_of_list_byte bs)))
      | None => None
      end
    else if Byte.eqb c x5c then goto (stateInStringEsc (c :: lit))
    else if (code c <? 0x20)%N then None
    else goto (stateInString (c :: lit))
  | stateInStringEsc lit =>
    match c with
    | "b"%byte | "f"%byte | "n"%byte | "r"%byte | "t"%byte
    | x5c | "/"%byte | x22 => goto (stateInString (c :: lit))
    | "u"%byte => goto (stateInStringEscU (c :: lit))
    | _ => None
    end
  | stateInStringEscU lit =>
    if isHex c then goto (stateInStringEscU1 (c :: lit)) else None
  | stateInStringEscU1 lit =>
    if isHex c then goto (stateInStringEscU12 (c :: lit)) else None
  | stateInStringEscU12 lit =>
    if isHex c then goto (stateInStringEscU123 (c :: lit)) else None
  | stateInStringEscU123 lit =>
    if isHex c then goto (stateInString (c :: lit)) else None
  | stateNeg lit =>
    if Byte.eqb c "0" then goto (state0 (c :: lit))
    else if between "1" "9" c then goto (state1 (c :: lit))
    else None
  | state1 lit => if isDigit c then goto (state1 (c :: lit)) else zero lit
  | state0 lit => zero lit
  | stateDot lit => if isDigit c then goto (stateDot0 (c :: lit)) else None
  | stateDot0 lit =>
    if isDigit c then goto (stateDot0 (c :: lit))
    else
      match c with
      | "e"%byte | "E"%byte => goto (stateE (c :: lit))
      | _ => endValue (number lit) stack c
      end
  | stateE lit =>
    match c with
    | "+"%byte | "-"%byte => goto (stateESign (c :: lit))
    | _ => esign lit
    end
  | stateESign lit => esign lit
  | stateE0 lit =>
    if isDigit c then goto (stateE0 (c :: lit))
    else endValue (number lit) stack c
  | stateT => expect "r"%byte stateTr
  | stateTr => expect "u"%byte stateTru
  | stateTru => expect "e"%byte (stateEndValue (JBool true))
  | stateF => expect "a"%byte stateFa
  | stateFa => expect "l"%byte stateFal
  | stateFal => expect "s"%byte stateFals
  | stateFals => expect "e"%byte (stateEndValue (JBool false))
  | stateN => expect "u"%byte stateNu
  | stateNu => expect "l"%byte stateNul
  | stateNul => expect "l"%byte (stateEndValue JNull)
  end.

(** The loop of [checkValid] over the input. *)
Fixpoint scanAll (s : scanner) (data : list byte) : option scanner :=
  match data with
  | [] => Some s
  | c :: rest =>
    match scan s c with
    | Some s' => scanAll s' rest
    | None => None
    end
  end.

(** [scanner.eof]: at the end of the input a space is fed to the scanner
    unless the top-level value is already known to be complete. *)
Definition eof (s : scanner) : option json :=
  match step s with
  | stateEndTop v => Some v
  | _ =>
    match scan s x20 with
    | Some (Scanner (stateEndTop v) _) => Some v
    | _ => None
    end
  end.

(** [checkValid], returning the value the input denotes when it is valid:
    [None] is the [*SyntaxError]. [scanner.reset] starts in
    [stateBeginValue] with an empty stack. *)
Definition checkValid (data : list byte) : option json :=
  match scanAll (Scanner stateBeginValue []) data with
  | Some s => eof s
  | None => None
  end.

(** Test inputs are written with an apostrophe wherever the JSON text has
    a double quote. *)
Definition text (s : string) : list byte :=
  map (fun c => if Byte.eqb c "'" then x22 else c) (list_byte_of_string s).

(** *** Field names

    A key of a JSON object selects the struct field whose name it equals
    or, failing that, the first field whose name it equals under case
    folding. The folding function is [equalFoldRight] of [fold.go]: ASCII
    letters match in either case, and the two non-ASCII runes that fold to
    an ASCII letter, U+017F (long s) and U+212A (Kelvin sign), match [s]
    and [k]. For the ASCII field names of this file the specialised
    [asciiEqualFold] and [simpleLetterEqualFold] agree with it. *)
Fixpoint equalFoldRight (s t : list byte) : bool :=
  match s, t with
  | [], [] => true
  | [], _ :: _ => false
  | _ :: _, [] => false
  | sb :: s', tb :: t' =>
    if (code tb <? 0x80)%N then
      if Byte.eqb sb tb then equalFoldRight s' t'
      else
        let sbUpper := N.land (code sb) 0xDF in
        if ((code "A" <=? sbUpper) && (sbUpper <=? code "Z")
            && (sbUpper =? N.land (code tb) 0xDF))%N
        then equalFoldRight s' t'
        else false
    else
      match sb, t with
      | ("s" | "S")%byte, xc5 :: xbf :: t'' => equalFoldRight s' t''
      | ("k" | "K")%byte, xe2 :: x84 :: xaa :: t'' => equalFoldRight s' t''
      | _, _ => false
      end
  end.

Definition equalFold (name key : string) : bool :=
  equalFoldRight (list_byte_of_string name) (list_byte_of_string key).

(** The name of a JSON value's kind, as [UnmarshalTypeError.Value] has it. *)
Definition valueKind (v : json) : string :=
  match v with
  | JNull => "null"
  | JBool _ => "bool"
  | JNumber _ => "number"
  | JString _ => "string"
  | JArray _ => "array"
  | JObject _ => "object"
  end.

(** ** net/http: requests and responses *)

(** [http.Header.Set]: the key is stored in canonical form, which the one
    key used here, [Accept], already has. *)
Definition Header : Type := gmap string (list string).

Definition Header_Set (key value : string) (h : Header) : Header :=
  <[key := [value]]> h.

Record Request : Type := { Method : string; URL : string; header : Header }.

(** A response body: the bytes the stream delivers and, when the stream
    breaks before its end, the failure that a [Read] then reports. *)
Record ReadCloser : Type := { content : list byte; failure : option string }.

Record Response : Type := { StatusCode : Z; Body : ReadCloser }.

(** ** The packages this file imports *)

Module ghrepo.

(** [ghrepo.Interface]: what the helpers ask of a repository value. *)
Class Interface (R : Type) : Type := {
  RepoName : R -> string;
  RepoOwner : R -> string;
  RepoHost : R -> string
}.

End ghrepo.
Export ghrepo.

(** What the code takes from packages that are not part of this file:
    the error translation of [api], the REST prefix of [ghinstance], and
    whether [url.Parse] accepts a string. The development holds for every
    choice of them. *)
Class Imports : Type := {
  HTTPError : Type;                            (* api.HTTPError *)
  HandleHTTPError : Response -> HTTPError;     (* api.HandleHTTPError *)
  RESTPrefix : string -> string;               (* ghinstance.RESTPrefix *)
  urlParses : string -> bool                   (* url.Parse returns no error *)
}.

(** ** Errors *)

Section Model.
Context `{Imports}.

(** The dynamic types an [error] returned by these helpers can have,
    each with the fields the properties below speak of. What a value of
    this type leaves out, two errors that are equal here may differ in:
    the message and the offset of a syntax error, the offset, struct and
    field of a type error. *)
Inductive error : Type :=
| errorString (addr : positive) (s : string)
    (* [*errors.errorString], the result of [errors.New]; [addr] is the
       identity of the allocation, which is what [==] compares *)
| ErrHTTP (e : HTTPError)                  (* api.HTTPError *)
| ErrMethod (method : string)              (* net/http: invalid method *)
| ErrURL (op url : string)                 (* *url.Error *)
| ErrTransport (msg : string)              (* any other failure of client.Do *)
| ErrRead (msg : string)                   (* a failed Read on a body *)
| SyntaxError                              (* *json.SyntaxError *)
| UnmarshalTypeError (value type : string) (* *json.UnmarshalTypeError *)
| PathError (op path errno : string).      (* *fs.PathError *)

(** line 84, line 85: the two package-level sentinels, one allocation
    each. *)
Definition releaseNotFoundErr : error := errorString 1 "release not found".
Definition commitNotFoundErr : error := errorString 2 "commit not found".

(** [err == target] for a target made by [errors.New]: the same dynamic
    type and the same pointer. *)
Definition sameError (err target : error) : bool :=
  match err, target with
  | errorString a _, errorString b _ => Pos.eqb a b
  | _, _ => false
  end.

(** ** encoding/json: decoding into the structs of lines 45 to 53 *)

(** [Name] has no tag and is read from the key [Name]; [APIURL] is tagged
    [json:"url"]. *)
Record releaseAsset : Type := { Name : string; APIURL : string }.

(** [Tag] is tagged [json:"tag_name"]; [Assets] has no tag. *)
Record release : Type := { Tag : string; Assets : list releaseAsset }.

(** The zero values, what [var r release] holds. *)
Definition zeroAsset : releaseAsset := {| Name := ""; APIURL := "" |}.
Definition zeroRelease : release := {| Tag := ""; Assets := [] |}.

(** [decodeState.saveError]: only the first error is kept, and decoding
    goes on. *)
Definition saveError (saved : option error) (e : error) : option error :=
  match saved with
  | None => Some e
  | Some _ => saved
  end.

(** Storing a JSON value into a field of type [string]: a string replaces
    the field, [null] leaves it as it is, anything else is a type error
    and leaves it as it is. *)
Definition storeString (v : json) (cur : string) (saved : option error)
  : string * option error :=
  match v with
  | JString s => (s, saved)
  | JNull => (cur, saved)
  | _ => (cur, saveError saved (UnmarshalTypeError (valueKind v) "string"))
  end.

(** One member of an object decoded into a [releaseAsset]; keys that name
    no field are skipped. *)
Definition storeAssetField (st : releaseAsset * option error)
    (m : string * json) : releaseAsset * option error :=
  let '(a, saved) := st in
  let '(key, v) := m in
  if equalFold "Name" key then
    let '(s, saved) := storeString v (Name a) saved in
    ({| Name := s; APIURL := APIURL a |}, saved)
  else if equalFold "url" key then
    let '(s, saved) := storeString v (APIURL a) saved in
    ({| Name := Name a; APIURL := s |}, saved)
  else (a, saved).

(** A JSON value decoded into a [releaseAsset] that currently holds
    [cur]. *)
Definition decodeAsset (v : json) (cur : releaseAsset)
    (saved : option error) : releaseAsset * option error :=
  match v with
  | JObject members => fold_left storeAssetField members (cur, saved)
  | JNull => (cur, saved)
  | _ => (cur, saveError saved
                 (UnmarshalTypeError (valueKind v) "extension.releaseAsset"))
  end.

(** The loop of [decodeState.array] into a slice that currently holds
    [cur]: element [i] of the input is decoded into element [i] of the
    slice when the slice has one and into a zero value otherwise, and the
    slice ends up as long as the input. (Go reuses the backing array
    beyond the current length, which could only be observed by a body that
    gives the key three times or more; the model starts those elements
    from the zero value.) *)
Fixpoint decodeElems (elems : list json) (cur : list releaseAsset)
    (saved : option error) : list releaseAsset * option error :=
  match elems with
  | [] => ([], saved)
  | v :: rest =>
    let '(a, saved) := decodeAsset v (hd zeroAsset cur) saved in
    let '(l, saved) := decodeElems rest (tl cur) saved in
    (a :: l, saved)
  end.

(** A JSON value decoded into a field of type [[]releaseAsset]; [null]
    sets the slice to nil. *)
Definition decodeAssets (v : json) (cur : list releaseAsset)
    (saved : option error) : list releaseAsset * option error :=
  match v with
  | JArray elems => decodeElems elems cur saved
  | JNull => ([], saved)
  | _ => (cur, saveError saved
                 (UnmarshalTypeError (valueKind v) "[]extension.releaseAsset"))
  end.

Definition storeReleaseField (st : release * option error)
    (m : string * json) : release * option error :=
  let '(r, saved) := st in
  let '(key, v) := m in
  if equalFold "tag_name" key then
    let '(s, saved) := storeString v (Tag r) saved in
    ({| Tag := s; Assets := Assets r |}, saved)
  else if equalFold "Assets" key then
    let '(l, saved) := decodeAssets v (Assets r) saved in
    ({| Tag := Tag r; Assets := l |}, saved)
  else (r, saved).

Definition decodeRelease (v : json) (cur : release) (saved : option error)
  : release * option error :=
  match v with
  | JObject members => fold_left storeReleaseField members (cur, saved)
  | JNull => (cur, saved)
  | _ => (cur, saveError saved
                 (UnmarshalTypeError (valueKind v) "extension.release"))
  end.

(** [json.Unmarshal(data, &r)]: the new contents of [r] and the error. *)
Definition Unmarshal (data : list byte) (r : release)
  : release * option error :=
  match checkValid data with
  | None => (r, Some SyntaxError)
  | Some v => decodeRelease v r None
  end.

(** ** fmt, io, ioutil *)

(** [fmt.Sprintf] for formats made of text and [%s] verbs whose operands
    are strings: each verb is replaced by the next operand. *)
Fixpoint Sprintf (format : string) (args : list string) : string :=
  match format with
  | EmptyString => EmptyString
  | String c rest =>
    match rest with
    | String d rest' =>
      if Ascii.eqb c "%" && Ascii.eqb d "s" then
        match args with
        | a :: args' => a ++ Sprintf rest' args'
        | [] => "%!s(MISSING)" ++ Sprintf rest' []
        end
      else String c (Sprintf rest args)
    | EmptyString => String c EmptyString
    end
  end.

(** [ioutil.ReadAll]: what was read and the error that stopped it. *)
Definition ReadAll (body : ReadCloser) : list byte * option error :=
  (content body, ErrRead <$> failure body).

(** ** os: the part of the file system the download touches

    A file system is a finite map from the resolved name of a file (the
    names of the directories from the root down, then its own) to a
    regular file (mode bits and contents) or a directory, together with
    what the process and the device add: the umask, the working
    directory, and the number of bytes the device still takes. Every
    file has one name: there are no hard or symbolic links. The process
    owns the files, may search and write every directory, and does not
    run as the superuser. *)

Record File : Type := { Mode : Z; Contents : list byte }.

Inductive Node : Type :=
| Regular (f : File)
| Directory.

Record FileSystem : Type := {
  nodes : gmap string Node;
  umask : Z;
  cwd : list string;
  free : nat
}.

(** The flags of [os.OpenFile], with their values on Linux. *)
Definition O_WRONLY : Z := 0x1.
Definition O_CREATE : Z := 0x40.
Definition O_TRUNC : Z := 0x200.

(** The limits of Linux on a path and on one of its components. *)
Definition PATH_MAX : Z := 4096.
Definition NAME_MAX : Z := 255.

(** An open [*os.File]: the name it was opened by, which its errors
    carry, the resolved name of the file it stands for, and the write
    offset. *)
Record OsFile : Type := { fname : string; target : string; offset : nat }.

Definition hasFlag (flag bit : Z) : bool := negb (Z.land flag bit =? 0).

(** Mode bits are written with their three octal digits: [oct 7 5 5] is
    Go's [0755]. *)
Definition oct (owner group other : Z) : Z := owner * 64 + group * 8 + other.

(** *** Path resolution *)

(** The pieces of a path between its separators; a leading, a doubled
    and a trailing separator each give an empty piece. *)
Fixpoint splitPath (path : string) : list string :=
  match path with
  | EmptyString => [EmptyString]
  | String c rest =>
    if Ascii.eqb c "/" then EmptyString :: splitPath rest
    else
      match splitPath rest with
      | [] => [String c EmptyString]
      | piece :: pieces => String c piece :: pieces
      end
  end.

(** The resolved name of the directory or file reached by [dir] from the
    root. *)
Definition pathKey (dir : list string) : string :=
  match dir with
  | [] => "/"
  | _ => fold_right (fun piece acc => "/" ++ piece ++ acc) "" dir
  end.

Definition isDirectory (fs : FileSystem) (dir : list string) : bool :=
  match dir with
  | [] => true
  | _ =>
    match nodes fs !! pathKey dir with
    | Some Directory => true
    | _ => false
    end
  end.

Definition tooLong (piece : string) : bool :=
  NAME_MAX <? Z.of_nat (String.length piece).

(** One component on the way to the last: [.] stays, [..] goes up (the
    root is its own parent), a name must be that of a directory. The
    answer on failure is the text of the errno. *)
Definition enter (fs : FileSystem) (dir : list string) (piece : string)
  : list string + string :=
  if String.eqb piece "." then inl dir
  else if String.eqb piece ".." then inl (removelast dir)
  else if tooLong piece then inr "file name too long"
  else
    match nodes fs !! pathKey (dir ++ [piece])%list with
    | Some Directory => inl (dir ++ [piece])%list
    | Some (Regular _) => inr "not a directory"
    | None => inr "no such file or directory"
    end.

Fixpoint walk (fs : FileSystem) (dir : list string) (pieces : list string)
  : list string + string :=
  match pieces with
  | [] => inl dir
  | piece :: rest =>
    match enter fs dir piece with
    | inl dir' => walk fs dir' rest
    | inr errno => inr errno
    end
  end.

Definition nonEmpty (piece : string) : bool := negb (String.eqb piece "").

Definition endsWithSlash (path : string) : bool :=
  match last (splitPath path) with
  | Some piece => String.eqb piece ""
  | None => false
  end.

Definition startsWithSlash (path : string) : bool :=
  match path with
  | String c _ => Ascii.eqb c "/"
  | EmptyString => false
  end.

(** [os.OpenFile(name, flag, perm)] for a file opened for writing, [perm]
    holding permission bits only.

    The name is refused when it holds a NUL byte, is empty or is too
    long. Its components are then followed from the root or from the
    working directory, repeated separators counting for one; each but the
    last must lead to a directory. The last component must not be [.],
    [..] or the root, must not be followed by a separator, and must not
    name a directory. An existing regular file needs the owner's write
    bit and keeps its mode; it is emptied under [O_TRUNC], which gives
    its bytes back to the device. A missing file is created under
    [O_CREATE], empty and with mode [perm &^ umask]. A failed call leaves
    the file system as it was, and its error carries the name as it was
    given. Flags other than the three above are not interpreted. *)
Definition OpenFile (name : string) (flag perm : Z) (fs : FileSystem)
  : (OsFile * FileSystem) + error :=
  let fail errno := inr (PathError "open" name errno) in
  if existsb (Ascii.eqb Ascii.zero) (list_ascii_of_string name)
  then fail "invalid argument"
  else if String.eqb name "" then fail "no such file or directory"
  else if PATH_MAX <=? Z.of_nat (String.length name)
  then fail "file name too long"
  else
    let pieces := filter nonEmpty (splitPath name) in
    let start := if startsWithSlash name then [] else cwd fs in
    if negb (isDirectory fs start) then fail "no such file or directory"
    else
      match walk fs start (removelast pieces) with
      | inr errno => fail errno
      | inl dir =>
        match last pieces with
        | None => fail "is a directory"
        | Some piece =>
          if String.eqb piece "." || String.eqb piece ".."
          then fail "is a directory"
          else if hasFlag flag O_CREATE && endsWithSlash name
          then fail "is a directory"
          else if tooLong piece then fail "file name too long"
          else
            let key := pathKey (dir ++ [piece])%list in
            let handle := {| fname := name; target := key; offset := 0 |} in
            match nodes fs !! key with
            | Some Directory => fail "is a directory"
            | Some (Regular f) =>
              if endsWithSlash name then fail "not a directory"
              else if hasFlag (Mode f) (oct 2 0 0) then
                if hasFlag flag O_TRUNC then
                  inl (handle,
                       {| nodes := <[key := Regular {| Mode := Mode f;
                                                       Contents := [] |}]>
                                     (nodes fs);
                          umask := umask fs; cwd := cwd fs;
                          free := free fs + length (Contents f) |})
                else inl (handle, fs)
              else fail "permission denied"
            | None =>
              if hasFlag flag O_CREATE then
                inl (handle,
                     {| nodes := <[key := Regular
                                            {| Mode := Z.ldiff perm (umask fs);
                                               Contents := [] |}]>
                                   (nodes fs);
                        umask := umask fs; cwd := cwd fs;
                        free := free fs |})
              else fail "no such file or directory"
            end
        end
      end.

(** [f.Write(b)]: the bytes go in at the offset of the handle, over what
    the file holds there and beyond its end for as long as the device
    takes bytes; when it takes no more, the bytes written so far stay
    and the call fails. *)
Definition Write (f : OsFile) (b : list byte) (fs : FileSystem)
  : (nat * option error) * (OsFile * FileSystem) :=
  match nodes fs !! target f with
  | Some (Regular old) =>
    let room := (length (Contents old) - offset f + free fs)%nat in
    let written := take room b in
    let new := (take (offset f) (Contents old)
                ++ replicate (offset f - length (Contents old)) x00
                ++ written
                ++ drop (offset f + length written) (Contents old))%list in
    let err := if (length b <=? room)%nat then None
               else Some (PathError "write" (fname f)
                                    "no space left on device") in
    ((length written, err),
     ({| fname := fname f; target := target f;
         offset := offset f + length written |},
      {| nodes := <[target f := Regular {| Mode := Mode old;
                                           Contents := new |}]> (nodes fs);
         umask := umask fs; cwd := cwd fs;
         free := free fs - (length new - length (Contents old)) |}))
  | _ => ((O, Some (PathError "write" (fname f) "bad file descriptor")),
          (f, fs))
  end.

(** [io.Copy(f, body)]: what the body delivers is written. A failed
    write ends the copy with its error; otherwise the failure of the
    body, if any, is the error. In both cases the bytes written before
    stay in the file. *)
Definition Copy (f : OsFile) (body : ReadCloser) (fs : FileSystem)
  : (Z * option error) * FileSystem :=
  let '((n, werr), (_, fs')) := Write f (content body) fs in
  match werr with
  | Some err => ((Z.of_nat n, Some err), fs')
  | None => ((Z.of_nat n, ErrRead <$> failure body), fs')
  end.

(** ** net/http: building and sending a request *)

(** [validMethod]: a method is a non-empty sequence of token characters. *)
Definition isTokenChar (c : ascii) : bool :=
  let n := N_of_ascii c in
  ((0x30 <=? n) && (n <=? 0x39) || (0x41 <=? n) && (n <=? 0x5A)
   || (0x61 <=? n) && (n <=? 0x7A)
   || existsb (N.eqb n) [0x21; 0x23; 0x24; 0x25; 0x26; 0x27; 0x2A; 0x2B;
                         0x2D; 0x2E; 0x5E; 0x5F; 0x60; 0x7C; 0x7E])%N.

Definition validMethod (method : string) : bool :=
  match list_ascii_of_string method with
  | [] => false
  | l => forallb isTokenChar l
  end.

(** [http.NewRequest(method, url, nil)]: an empty method stands for GET;
    the call fails on an invalid method and on a URL that [url.Parse]
    rejects; the new request has no header fields. *)
Definition NewRequest (method url : string) : Request + error :=
  let method := if String.eqb method "" then "GET" else method in
  if negb (validMethod method) then inr (ErrMethod method)
  else if negb (urlParses url) then inr (ErrURL "parse" url)
  else inl {| Method := method; URL := url; header := ∅ |}.

(** An [*http.Client], seen from this file: what [Do] answers to a
    request. *)
Definition Client : Type := Request -> Response + error.

(** The state the helpers act on: the file system, and the requests
    handed to the client so far, oldest first. *)
Record World : Type := { fs : FileSystem; sent : list Request }.

(** [httpClient.Do(req)]. *)
Definition Do (httpClient : Client) (req : Request) (w : World)
  : (Response + error) * World :=
  (httpClient req, {| fs := fs w; sent := (sent w ++ [req])%list |}).

(** ** The helpers of http.go *)

Section Helpers.
Context {R : Type} `{!ghrepo.Interface R}.

(** line 17. The results are named, [(hs bool, err error)], and every
    [err] of the body is that one variable: a bare [return] gives back
    the current [hs] and [err]. *)
Definition hasScript (httpClient : Client) (repo : R) (w : World)
  : (bool * option error) * World :=
  let path := Sprintf "repos/%s/%s/contents/%s"
                [RepoOwner repo; RepoName repo; RepoName repo] in
  let url := RESTPrefix (RepoHost repo) ++ path in
  match NewRequest "GET" url with
  | inr err => ((false, Some err), w)
  | inl req =>
    let '(answer, w) := Do httpClient req w in
    match answer with
    | inr err => ((false, Some err), w)
    | inl resp =>
      if StatusCode resp =? 404 then ((false, None), w)
      else if StatusCode resp >? 299 then
        ((false, Some (ErrHTTP (HandleHTTPError resp))), w)
      else ((true, None), w)
    end
  end.

(** line 56: downloadAsset downloads a single asset to the given file
    path. *)
Definition downloadAsset (httpClient : Client) (asset : releaseAsset)
    (destPath : string) (w : World) : option error * World :=
  match NewRequest "GET" (APIURL asset) with
  | inr err => (Some err, w)
  | inl req =>
    let req := {| Method := Method req; URL := URL req;
                  header := Header_Set "Accept" "application/octet-stream"
                              (header req) |} in
    let '(answer, w) := Do httpClient req w in
    match answer with
    | inr err => (Some err, w)
    | inl resp =>
      if StatusCode resp >? 299 then
        (Some (ErrHTTP (HandleHTTPError resp)), w)
      else
        match OpenFile destPath (Z.lor (Z.lor O_CREATE O_WRONLY) O_TRUNC)
                (oct 7 5 5) (fs w) with
        | inr err => (Some err, w)
        | inl (f, disk) =>
          let '((_, err), disk) := Copy f (Body resp) disk in
          (err, {| fs := disk; sent := sent w |})
        end
    end
  end.

(** line 88: fetchLatestRelease finds the latest published release for a
    repository. *)
Definition fetchLatestRelease (httpClient : Client) (baseRepo : R)
    (w : World) : (option release * option error) * World :=
  let path := Sprintf "repos/%s/%s/releases/latest"
                [RepoOwner baseRepo; RepoName baseRepo] in
  let url := RESTPrefix (RepoHost baseRepo) ++ path in
  match NewRequest "GET" url with
  | inr err => ((None, Some err), w)
  | inl req =>
    let '(answer, w) := Do httpClient req w in
    match answer with
    | inr err => ((None, Some err), w)
    | inl resp =>
      if StatusCode resp >? 299 then
        ((None, Some (ErrHTTP (HandleHTTPError resp))), w)
      else
        match ReadAll (Body resp) with
        | (_, Some err) => ((None, Some err), w)
        | (b, None) =>
          match Unmarshal b zeroRelease with
          | (_, Some err) => ((None, Some err), w)
          | (r, None) => ((Some r, None), w)
          end
        end
    end
  end.

(** line 121: fetchReleaseFromTag finds release by tag name for a
    repository. *)
Definition fetchReleaseFromTag (httpClient : Client) (baseRepo : R)
    (tagName : string) (w : World)
  : (option release * option error) * World :=
  let fullRepoName := Sprintf "%s/%s" [RepoOwner baseRepo; RepoName baseRepo] in
  let path := Sprintf "repos/%s/releases/tags/%s" [fullRepoName; tagName] in
  let url := RESTPrefix (RepoHost baseRepo) ++ path in
  match NewRequest "GET" url with
  | inr err => ((None, Some err), w)
  | inl req =>
    let '(answer, w) := Do httpClient req w in
    match answer with
    | inr err => ((None, Some err), w)
    | inl resp =>
      if StatusCode resp =? 404 then ((None, Some releaseNotFoundErr), w)
      else if StatusCode resp >? 299 then
        ((None, Some (ErrHTTP (HandleHTTPError resp))), w)
      else
        match ReadAll (Body resp) with
        | (_, Some err) => ((None, Some err), w)
        | (b, None) =>
          match Unmarshal b zeroRelease with
          | (_, Some err) => ((None, Some err), w)
          | (r, None) => ((Some r, None), w)
          end
        end
    end
  end.

(** line 158: fetchCommitSHA finds full commit SHA from a target ref in a
    repo. [string(body)] keeps every byte. *)
Definition fetchCommitSHA (httpClient : Client) (baseRepo : R)
    (targetRef : string) (w : World) : (string * option error) * World :=
  let path := Sprintf "repos/%s/%s/commits/%s"
                [RepoOwner baseRepo; RepoName baseRepo; targetRef] in
  let url := RESTPrefix (RepoHost baseRepo) ++ path in
  match NewRequest "GET" url with
  | inr err => (("", Some err), w)
  | inl req =>
    let req := {| Method := Method req; URL := URL req;
                  header := Header_Set "Accept"
                              "application/vnd.github.VERSION.sha"
                              (header req) |} in
    let '(answer, w) := Do httpClient req w in
    match answer with
    | inr err => (("", Some err), w)
    | inl resp =>
      if StatusCode resp =? 422 then (("", Some commitNotFoundErr), w)
      else if StatusCode resp >? 299 then
        (("", Some (ErrHTTP (HandleHTTPError resp))), w)
      else
        match ReadAll (Body resp) with
        | (_, Some err) => (("", Some err), w)
        | (body, None) => ((string_of_list_byte body, None), w)
        end
    end
  end.

(** *** The table of requests

    The URL of each operation as the table of requests gives it: the REST
    prefix of the host, then the path with owner, name, tag and ref filled
    in. *)
Definition contentsURL (repo : R) : string :=
  RESTPrefix (RepoHost repo) ++ "repos/" ++ RepoOwner repo ++ "/"
    ++ RepoName repo ++ "/contents/" ++ RepoName repo.

Definition latestReleaseURL (repo : R) : string :=
  RESTPrefix (RepoHost repo) ++ "repos/" ++ RepoOwner repo ++ "/"
    ++ RepoName repo ++ "/releases/latest".

Definition releaseByTagURL (repo : R) (tag : string) : string :=
  RESTPrefix (RepoHost repo) ++ "repos/" ++ RepoOwner repo ++ "/"
    ++ RepoName repo ++ "/releases/tags/" ++ tag.

Definition commitURL (repo : R) (ref : string) : string :=
  RESTPrefix (RepoHost repo) ++ "repos/" ++ RepoOwner repo ++ "/"
    ++ RepoName repo ++ "/commits/" ++ ref.

(** A GET request for [url] with the header fields [h]. *)
Definition GET (url : string) (h : Header) : Request :=
  {| Method := "GET"; URL := url; header := h |}.

(** The header of a new request after [req.Header.Set("Accept", value)]. *)
Definition accept (value : string) : Header := Header_Set "Accept" value ∅.

(** The flags and the mode the download opens its destination with. *)
Definition downloadFlags : Z := Z.lor (Z.lor O_CREATE O_WRONLY) O_TRUNC.

(** Between the worlds [w] and [w'] exactly one request went to the
    client, a GET for [url]; or none at all, when no request can be built
    for [url]. *)
Definition issuesGET (url : string) (w w' : World) : Prop :=
  if urlParses url
  then exists req, sent w' = (sent w ++ [req])%list
                   /\ Method req = "GET" /\ URL req = url
  else sent w' = sent w.

(** The JSON value of a release and of an asset, in the shape of the
    upstream API. *)
Definition assetJSON (a : releaseAsset) : json :=
  JObject [("Name", JString (Name a)); ("url", JString (APIURL a))].

Definition releaseJSON (r : release) : json :=
  JObject [("tag_name", JString (Tag r));
           ("Assets", JArray (map assetJSON (Assets r)))].

(** An object has none of the fields of [release]: no key selects [Tag]
    or [Assets]. *)
Definition omitsReleaseFields (members : list (string * json)) : bool :=
  forallb (fun m => negb (equalFold "tag_name" m.1)
                    && negb (equalFold "Assets" m.1)) members.

(** *** Writing a release as JSON text

    The compact text of [releaseJSON r], for strings that need no
    escaping: every byte is printable ASCII other than the double quote
    and the backslash. *)
Definition plainByte (c : byte) : bool :=
  (0x20 <=? code c)%N && (code c <? 0x80)%N
  && negb (Byte.eqb c x22) && negb (Byte.eqb c x5c).

Definition plain (s : string) : bool :=
  forallb plainByte (list_byte_of_string s).

Definition plainAsset (a : releaseAsset) : bool :=
  plain (Name a) && plain (APIURL a).

Definition quoted (s : string) : list byte :=
  x22 :: (list_byte_of_string s ++ [x22])%list.

Definition renderAsset (a : releaseAsset) : list byte :=
  (text "{'Name':" ++ quoted (Name a)
   ++ text ",'url':" ++ quoted (APIURL a) ++ text "}")%list.

Fixpoint renderAssets (l : list releaseAsset) : list byte :=
  match l with
  | [] => []
  | a :: rest =>
    match rest with
    | [] => renderAsset a
    | _ :: _ => (renderAsset a ++ text "," ++ renderAssets rest)%list
    end
  end.

Definition renderRelease (r : release) : list byte :=
  (text "{'tag_name':" ++ quoted (Tag r)
   ++ text ",'Assets':[" ++ renderAssets (Assets r) ++ text "]}")%list.

(** A 2xx status. *)
Definition is2xx (status : Z) : Prop := 200 <= status <= 299.

(** What the two release helpers make of a response they accept: lines
    106 to 117 and lines 143 to 154. *)
Definition decoded (resp : Response) : option release * option error :=
  match ReadAll (Body resp) with
  | (_, Some err) => (None, Some err)
  | (b, None) =>
    match Unmarshal b zeroRelease with
    | (_, Some err) => (None, Some err)
    | (r, None) => (Some r, None)
    end
  end.

(** A body that delivers [b] and then ends. *)
Definition complete (b : list byte) : ReadCloser :=
  {| content := b; failure := None |}.

End Helpers.

End Model.

(** ** Stand-ins for running the helpers

    A repository value, an instance of the imported packages and canned
    clients, in the manner of the repository's HTTP mocks. *)

Record Repo : Type := { owner : string; name : string; host : string }.

#[export] Instance Repo_Interface : ghrepo.Interface Repo :=
  {| RepoName := name; RepoOwner := owner; RepoHost := host |}.

(** Errors keep the status and the raw body; every host is served under
    [/api/v3/]; a URL is accepted unless it holds an ASCII control
    character, the first thing [url.Parse] looks for. *)
Definition testImports : Imports :=
  {| HTTPError := Z * list byte;
     HandleHTTPError := fun resp => (StatusCode resp, content (Body resp));
     RESTPrefix := fun hostname => "https://" ++ hostname ++ "/api/v3/";
     urlParses := fun url =>
       forallb (fun c => (0x20 <=? N_of_ascii c)%N
                         && negb (N_of_ascii c =? 0x7F)%N)
               (list_ascii_of_string url) |}.

Definition testRepo : Repo :=
  {| owner := "monalisa"; name := "gh-hello"; host := "ghe.io" |}.

(** A client that answers every request with the same status and body. *)
Definition respond (I : Imports) (status : Z) (body : list byte)
  : @Client I :=
  fun _ => inl {| StatusCode := status; Body := complete body |}.

(** A file system with the directory [/tmp], which is the working
    directory, and a read-write file in it, under the usual umask [022]
    and with room for 4096 bytes more. *)
Definition testFS : FileSystem :=
  {| nodes := {[ "/tmp" := Directory;
                 "/tmp/old" := Regular {| Mode := oct 6 4 4;
                                          Contents := text "stale" |} ]};
     umask := oct 0 2 2; cwd := ["tmp"]; free := 4096 |}.

Definition testWorld : World := {| fs := testFS; sent := [] |}.

Definition testAsset : releaseAsset :=
  {| Name := "gh-hello-linux-amd64";
     APIURL := "https://ghe.io/api/v3/repos/monalisa/gh-hello/releases/assets/1" |}.

(** The file system of a process whose umask is [077]. *)
Definition privateFS : FileSystem :=
  {| nodes := {[ "/tmp" := Directory ]}; umask := oct 0 7 7;
     cwd := []; free := 4096 |}.

(** The file system of [testFS] on a device that takes three bytes
    more. *)
Definition fullFS : FileSystem :=
  {| nodes := nodes testFS; umask := umask testFS; cwd := cwd testFS;
     free := 3 |}.

Definition releaseBody : list byte :=
  text "{'tag_name': 'v1.0.0', 'Assets': [{'Name': 'gh-hello-linux-amd64', 'url': 'https://ghe.io/api/v3/repos/monalisa/gh-hello/releases/assets/1'}, {'Name': 'gh-hello-windows-amd64.exe', 'url': 'https://ghe.io/api/v3/repos/monalisa/gh-hello/releases/assets/2'}]}".

Definition testRelease : release :=
  {| Tag := "v1.0.0";
     Assets :=
       [testAsset;
        {| Name := "gh-hello-windows-amd64.exe";
           APIURL := "https://ghe.io/api/v3/repos/monalisa/gh-hello/releases/assets/2" |}] |}.

(** A commit SHA followed by a line feed. *)
Definition shaBody : list byte := (text "8a5b3c0f" ++ [x0a])%list.

Definition binary : list byte := [x7f; "E"; "L"; "F"; x02; x01; x01; x00]%byte.

(** ** Further notions for the properties of the helpers *)

(** The errors a helper can meet once the status test has passed: a body
    that breaks off, and the two errors of [json.Unmarshal]. *)
Definition bodyError `{Imports} (e : error) : Prop :=
  match e with
  | ErrRead _ | SyntaxError | UnmarshalTypeError _ _ => True
  | _ => False
  end.

(** A release as the upstream API spells it: [assets] and [name] in lower
    case, which [Assets] and [Name] are matched against under folding. *)
Definition upstreamAssetJSON (a : releaseAsset) : json :=
  JObject [("url", JString (APIURL a)); ("name", JString (Name a))].

Definition upstreamReleaseJSON (r : release) : json :=
  JObject [("tag_name", JString (Tag r));
           ("assets", JArray (map upstreamAssetJSON (Assets r)))].

(** A JSON value that is neither an object nor [null]. *)
Definition notObject (v : json) : bool :=
  match v with
  | JObject _ | JNull => false
  | _ => true
  end.

(** A JSON value that a field of type [string] cannot take. *)
Definition notString (v : json) : bool :=
  match v with
  | JString _ | JNull => false
  | _ => true
  end.

(** A member of an object selects a field of [release]. *)
Definition selectsField (m : string * json) : bool :=
  equalFold "tag_name" m.1 || equalFold "Assets" m.1.

(** A client whose transport fails on every request. *)
Definition refuse (I : Imports) (msg : string) : @Client I :=
  fun _ => inr (ErrTransport msg).

(** A client that answers every request with [resp]. *)
Definition answer (I : Imports) (resp : Response) : @Client I :=
  fun _ => inl resp.

(** A client that serves the responses of [table] by URL. *)
Definition serve (I : Imports) (table : list (string * Response))
  : @Client I :=
  fun req =>
    match find (fun entry => String.eqb entry.1 (URL req)) table with
    | Some entry => inl entry.2
    | None => inr (ErrTransport "no route to host")
    end.

(** A body of which only the first bytes arrive. *)
Definition cutOff (b : list byte) : ReadCloser :=
  {| content := b; failure := Some "unexpected EOF" |}.

(** A repository whose name holds a line feed, and an asset whose URL
    does. *)
Definition badRepo : Repo :=
  {| owner := "monalisa"; name := String "010" "x"; host := "ghe.io" |}.

Definition badAsset : releaseAsset :=
  {| Name := "gh-hello"; APIURL := String "010" "https://ghe.io/a/1" |}.

(** The release of [testRelease] in the spelling of the upstream API. *)
Definition upstreamBody : list byte :=
  text "{'tag_name': 'v1.0.0', 'assets': [{'url': 'https://ghe.io/api/v3/repos/monalisa/gh-hello/releases/assets/1', 'name': 'gh-hello-linux-amd64'}, {'url': 'https://ghe.io/api/v3/repos/monalisa/gh-hello/releases/assets/2', 'name': 'gh-hello-windows-amd64.exe'}]}".

(** The release of [testRelease] among members that [release] has no
    field for. *)
Definition paddedBody : list byte :=
  text "{'id': 7, 'tag_name': 'v1.0.0', 'draft': false, 'author': {'login': 'monalisa'}, 'Assets': [{'Name': 'gh-hello-linux-amd64', 'url': 'https://ghe.io/api/v3/repos/monalisa/gh-hello/releases/assets/1'}, {'Name': 'gh-hello-windows-amd64.exe', 'url': 'https://ghe.io/api/v3/repos/monalisa/gh-hello/releases/assets/2'}], 'body': null}".

Definition paddedMembers : list (string * json) :=
  Eval vm_compute in
    match checkValid paddedBody with
    | Some (JObject members) => members
    | _ => []
    end.

(** A release whose tag is a number. *)
Definition mistypedBody : list byte :=
  text "{'Assets': [], 'TAG_NAME': 7, 'draft': false}".

Definition mistypedMembers : list (string * json) :=
  Eval vm_compute in
    match checkValid mistypedBody with
    | Some (JObject members) => members
    | _ => []
    end.

(** A server with the latest release of [testRepo] and its first asset. *)
Definition testServer : @Client testImports :=
  serve testImports
    [("https://ghe.io/api/v3/repos/monalisa/gh-hello/releases/latest",
      {| StatusCode := 200; Body := complete releaseBody |});
     ("https://ghe.io/api/v3/repos/monalisa/gh-hello/releases/assets/1",
      {| StatusCode := 200; Body := complete binary |})].

(** * Properties *)

Section Properties.
Context `{Imports} {R : Type} `{!ghrepo.Interface R}.
Implicit Types (httpClient : Client) (repo : R) (w : World) (resp : Response).

(** ** Strings and formats *)

Lemma append_cons (c : ascii) (s t : string) :
  String c s ++ t = String c (s ++ t).
Proof. reflexivity. Qed.

Lemma append_nil_r (s : string) : s ++ "" = s.
Proof.
  induction s as [|c s IH]; [reflexivity|].
  now rewrite append_cons, IH.
Qed.

Lemma append_assoc (s t u : string) : (s ++ t) ++ u = s ++ t ++ u.
Proof.
  induction s as [|c s IH]; [reflexivity|].
  now rewrite !append_cons, IH.
Qed.

(** The URL each helper builds with [Sprintf] is the one of the table. *)
Lemma hasScript_url repo :
  RESTPrefix (RepoHost repo)
    ++ Sprintf "repos/%s/%s/contents/%s"
         [RepoOwner repo; RepoName repo; RepoName repo]
  = contentsURL repo.
Proof. unfold contentsURL. simpl. now rewrite append_nil_r. Qed.

Lemma fetchLatestRelease_url repo :
  RESTPrefix (RepoHost repo)
    ++ Sprintf "repos/%s/%s/releases/latest" [RepoOwner repo; RepoName repo]
  = latestReleaseURL repo.
Proof. reflexivity. Qed.

Lemma fetchReleaseFromTag_url repo tagName :
  RESTPrefix (RepoHost repo)
    ++ Sprintf "repos/%s/releases/tags/%s"
         [Sprintf "%s/%s" [RepoOwner repo; RepoName repo]; tagName]
  = releaseByTagURL repo tagName.
Proof.
  unfold releaseByTagURL. simpl.
  now rewrite !append_nil_r, !append_assoc.
Qed.

Lemma fetchCommitSHA_url repo targetRef :
  RESTPrefix (RepoHost repo)
    ++ Sprintf "repos/%s/%s/commits/%s"
         [RepoOwner repo; RepoName repo; targetRef]
  = commitURL repo targetRef.
Proof. unfold commitURL. simpl. now rewrite append_nil_r. Qed.

(** A request for a URL that parses is built as [GET url ∅]. *)
Lemma NewRequest_GET (url : string) :
  urlParses url = true -> NewRequest "GET" url = inl (GET url ∅).
Proof. intros Hurl. unfold NewRequest. cbn. now rewrite Hurl. Qed.

Lemma NewRequest_GET_fails (url : string) :
  urlParses url = false -> NewRequest "GET" url = inr (ErrURL "parse" url).
Proof. intros Hurl. unfold NewRequest. cbn. now rewrite Hurl. Qed.

(** ** The existence check *)

(** What [hasScript] returns once the client has answered. *)
Lemma hasScript_answered httpClient repo w resp :
  urlParses (contentsURL repo) = true ->
  httpClient (GET (contentsURL repo) ∅) = inl resp ->
  (hasScript httpClient repo w).1 =
    if StatusCode resp =? 404 then (false, None)
    else if StatusCode resp >? 299
         then (false, Some (ErrHTTP (HandleHTTPError resp)))
         else (true, None).
Proof.
  intros Hurl Hresp. unfold hasScript.
  rewrite hasScript_url, (NewRequest_GET _ Hurl). unfold Do.
  rewrite Hresp.
  destruct (StatusCode resp =? 404); [reflexivity|].
  destruct (StatusCode resp >? 299); reflexivity.
Qed.

(** C1. For every repository identifier, once the request has been
    answered, [hasScript] returns (false, nil) when the status of the
    response is 404, whatever its body, and (true, nil) when the status is
    any 2xx. *)
Theorem hasScript_404_false_2xx_true httpClient repo w resp :
  urlParses (contentsURL repo) = true ->
  httpClient (GET (contentsURL repo) ∅) = inl resp ->
  (StatusCode resp = 404 -> (hasScript httpClient repo w).1 = (false, None))
  /\ (is2xx (StatusCode resp) ->
      (hasScript httpClient repo w).1 = (true, None)).
Proof.
  intros Hurl Hresp.
  rewrite (hasScript_answered _ _ _ _ Hurl Hresp).
  split.
  - intros ->. reflexivity.
  - intros [Hlo Hhi].
    destruct (Z.eqb_spec (StatusCode resp) 404) as [E|_]; [lia|].
    destruct (Z.gtb_spec (StatusCode resp) 299) as [G|_]; [lia|].
    reflexivity.
Qed.

(** C2, as amended. For every response whose status is above 299 and is
    not 404, [hasScript] returns exists=false together with the error that
    [api.HandleHTTPError] makes of the response. *)
Theorem hasScript_above_299_error httpClient repo w resp :
  urlParses (contentsURL repo) = true ->
  httpClient (GET (contentsURL repo) ∅) = inl resp ->
  StatusCode resp <> 404 ->
  StatusCode resp > 299 ->
  (hasScript httpClient repo w).1
  = (false, Some (ErrHTTP (HandleHTTPError resp))).
Proof.
  intros Hurl Hresp H404 Hhi.
  rewrite (hasScript_answered _ _ _ _ Hurl Hresp).
  destruct (Z.eqb_spec (StatusCode resp) 404) as [E|_]; [contradiction|].
  destruct (Z.gtb_spec (StatusCode resp) 299) as [_|G]; [reflexivity|lia].
Qed.

(** The statuses at or below 299, 404 apart, all count as found: the
    test is [StatusCode > 299], with no lower bound. *)
Lemma hasScript_up_to_299_true httpClient repo w resp :
  urlParses (contentsURL repo) = true ->
  httpClient (GET (contentsURL repo) ∅) = inl resp ->
  StatusCode resp <= 299 ->
  (hasScript httpClient repo w).1 = (true, None).
Proof.
  intros Hurl Hresp Hle.
  rewrite (hasScript_answered _ _ _ _ Hurl Hresp).
  destruct (Z.eqb_spec (StatusCode resp) 404) as [E|_]; [lia|].
  destruct (Z.gtb_spec (StatusCode resp) 299) as [G|_]; [lia|reflexivity].
Qed.

(** ** Decoding a release *)

Lemma decodeAsset_assetJSON (a cur : releaseAsset) (saved : option error) :
  decodeAsset (assetJSON a) cur saved = (a, saved).
Proof. destruct a as [n u]. reflexivity. Qed.

Lemma decodeElems_assetJSON (assets cur : list releaseAsset)
    (saved : option error) :
  decodeElems (map assetJSON assets) cur saved = (assets, saved).
Proof.
  revert cur. induction assets as [|a assets IH]; intros cur; [reflexivity|].
  cbn [map decodeElems].
  now rewrite decodeAsset_assetJSON, IH.
Qed.

Lemma decodeRelease_releaseJSON (r cur : release) :
  decodeRelease (releaseJSON r) cur None = (r, None).
Proof.
  destruct r as [t assets].
  unfold releaseJSON, decodeRelease. cbn [fold_left Tag Assets].
  change (storeReleaseField (cur, None) ("tag_name", JString t))
    with ({| Tag := t; Assets := Assets cur |}, @None error).
  unfold storeReleaseField.
  change (equalFold "tag_name" "Assets") with false.
  change (equalFold "Assets" "Assets") with true.
  cbn [decodeAssets Tag Assets].
  now rewrite decodeElems_assetJSON.
Qed.

(** The first step of a fold and of a test over a list, for any function:
    used where the function at hand is costly to unfold. *)
Lemma fold_left_step {A B : Type} (f : A -> B -> A) (x : B) (l : list B)
    (a : A) :
  fold_left f (x :: l) a = fold_left f l (f a x).
Proof. reflexivity. Qed.

Lemma forallb_step {A : Type} (f : A -> bool) (x : A) (l : list A) :
  forallb f (x :: l) = true -> f x = true /\ forallb f l = true.
Proof. intros Hf. now apply andb_prop in Hf. Qed.

(** A member whose key selects no field is passed over. *)
Lemma storeReleaseField_skip (cur : release) (saved : option error)
    (key : string) (v : json) :
  equalFold "tag_name" key = false ->
  equalFold "Assets" key = false ->
  storeReleaseField (cur, saved) (key, v) = (cur, saved).
Proof.
  intros Htag Hassets.
  transitivity (if equalFold "tag_name" key
                then (let '(s, saved') := storeString v (Tag cur) saved in
                      ({| Tag := s; Assets := Assets cur |}, saved'))
                else if equalFold "Assets" key
                     then (let '(l, saved') :=
                             decodeAssets v (Assets cur) saved in
                           ({| Tag := Tag cur; Assets := l |}, saved'))
                     else (cur, saved)); [reflexivity|].
  now rewrite Htag, Hassets.
Qed.

(** Members whose keys select no field leave the struct and the saved
    error as they are. *)
Lemma decodeRelease_omitted (members : list (string * json)) (cur : release)
    (saved : option error) :
  omitsReleaseFields members = true ->
  fold_left storeReleaseField members (cur, saved) = (cur, saved).
Proof.
  unfold omitsReleaseFields.
  induction members as [|[key v] members IH]; intros Hd; [reflexivity|].
  apply forallb_step in Hd as [Hkey Hrest].
  apply andb_prop in Hkey as [Htag Hassets].
  apply negb_true_iff in Htag, Hassets.
  rewrite fold_left_step.
  rewrite (storeReleaseField_skip cur saved key v Htag Hassets).
  exact (IH Hrest).
Qed.

Lemma decoded_release (resp : Response) (body : list byte) (r : release) :
  Body resp = complete body ->
  checkValid body = Some (releaseJSON r) ->
  decoded resp = (Some r, None).
Proof.
  intros Hbody Hjson. unfold decoded, ReadAll, Unmarshal.
  rewrite Hbody. cbn [content failure complete fmap option_fmap option_map].
  now rewrite Hjson, decodeRelease_releaseJSON.
Qed.

Lemma decoded_malformed (resp : Response) (body : list byte) :
  Body resp = complete body ->
  checkValid body = None ->
  decoded resp = (None, Some SyntaxError).
Proof.
  intros Hbody Hjson. unfold decoded, ReadAll, Unmarshal.
  rewrite Hbody. cbn [content failure complete fmap option_fmap option_map].
  now rewrite Hjson.
Qed.

Lemma decoded_omitted (resp : Response) (body : list byte)
    (members : list (string * json)) :
  Body resp = complete body ->
  checkValid body = Some (JObject members) ->
  omitsReleaseFields members = true ->
  decoded resp = (Some zeroRelease, None).
Proof.
  intros Hbody Hjson Homit. unfold decoded, ReadAll, Unmarshal.
  rewrite Hbody. cbn [content failure complete fmap option_fmap option_map].
  rewrite Hjson. unfold decodeRelease.
  now rewrite decodeRelease_omitted.
Qed.

(** ** The scanner on the text of a release *)

Lemma scanAll_app (s : scanner) (a b : list byte) :
  scanAll s (a ++ b)%list =
    match scanAll s a with
    | Some s' => scanAll s' b
    | None => None
    end.
Proof.
  revert s. induction a as [|c a IH]; intros s; [reflexivity|].
  cbn [app scanAll]. destruct (scan s c); [apply IH | reflexivity].
Qed.

Lemma plainByte_inv (c : byte) :
  plainByte c = true ->
  Byte.eqb c x22 = false /\ Byte.eqb c x5c = false
  /\ (code c <? 0x20)%N = false /\ (code c <? 0x80)%N = true.
Proof.
  unfold plainByte. intros Hp.
  apply andb_prop in Hp as [Hp Hbs]. apply andb_prop in Hp as [Hp Hq].
  apply andb_prop in Hp as [Hlo Hhi].
  apply negb_true_iff in Hbs, Hq. apply N.leb_le in Hlo.
  repeat split; try assumption.
  apply N.ltb_ge. exact Hlo.
Qed.

(** Inside a string literal plain bytes are taken as they come. *)
Lemma scanAll_plain (bs lit : list byte) (stack : list frame) :
  forallb plainByte bs = true ->
  scanAll (Scanner (stateInString lit) stack) bs
  = Some (Scanner (stateInString (rev bs ++ lit)%list) stack).
Proof.
  revert lit. induction bs as [|c bs IH]; intros lit Hp; [reflexivity|].
  cbn [forallb] in Hp. apply andb_prop in Hp as [Hc Hbs].
  destruct (plainByte_inv c Hc) as (Hq & Hb & Hlo & _).
  cbn [scanAll]. unfold scan at 1. cbn [step parseState].
  rewrite Hq, Hb, Hlo. rewrite (IH _ Hbs).
  cbn [rev]. now rewrite <- app_assoc.
Qed.

Lemma unquote_plain (bs : list byte) :
  forallb plainByte bs = true -> unquote bs = Some bs.
Proof.
  induction bs as [|c bs IH]; intros Hp; [reflexivity|].
  cbn [forallb] in Hp. apply andb_prop in Hp as [Hc Hbs].
  destruct (plainByte_inv c Hc) as (Hq & Hb & Hlo & Hhi).
  cbn [unquote]. rewrite Hb, Hq, Hlo, Hhi. cbn [orb].
  now rewrite (IH Hbs).
Qed.

(** A plain string between quotes is read back as itself. *)
Lemma scanAll_string (s : string) (stack : list frame) (rest : list byte) :
  plain s = true ->
  scanAll (Scanner (stateInString []) stack)
          (list_byte_of_string s ++ x22 :: rest)%list
  = scanAll (Scanner (stateEndValue (JString s)) stack) rest.
Proof.
  intros Hp. rewrite scanAll_app, (scanAll_plain _ _ _ Hp).
  cbn [scanAll]. unfold scan at 1. cbn [step parseState Byte.eqb].
  rewrite app_nil_r, rev_involutive, (unquote_plain _ Hp).
  now rewrite string_of_list_byte_of_string.
Qed.

Lemma pushParseState_ok (f : frame) (stack : list frame) (next : state) :
  Z.of_nat (length stack) < maxNestingDepth ->
  pushParseState f stack next = Some (Scanner next (f :: stack)).
Proof.
  intros Hd. unfold pushParseState.
  destruct (Z.leb_spec (Z.of_nat (length (f :: stack))) maxNestingDepth)
    as [_|Hgt]; [reflexivity|].
  cbn [length] in Hgt. lia.
Qed.

(** One byte of a known text: the step of the scanner is evaluated. *)
Ltac scan_with eval_step :=
  lazymatch goal with
  | |- context [scanAll ?s (cons ?c ?l)] =>
    change (scanAll s (c :: l))
      with (match scan s c with Some s' => scanAll s' l | None => None end);
    let r := eval_step (scan s c) in
    change (scan s c) with r; cbv iota beta
  end.

Ltac scan_byte :=
  scan_with ltac:(fun t =>
    eval cbv -[pushParseState popParseState assetJSON] in t).

(** The byte that closes a composite value whose elements are not known:
    the reversal of the elements is left alone. *)
Ltac scan_close :=
  scan_with ltac:(fun t =>
    eval cbv -[pushParseState popParseState assetJSON rev app map] in t).

(** The same for an opening brace or bracket within the depth bound. *)
Ltac scan_open :=
  scan_byte;
  rewrite pushParseState_ok by (cbn [length]; unfold maxNestingDepth in *; lia);
  cbv iota beta.

Ltac flatten := repeat first [rewrite <- app_assoc | progress cbn [app]].

Lemma scanAll_renderAsset (a : releaseAsset) (st : state) (es : list json)
    (stack : list frame) (rest : list byte) :
  st = stateBeginValue \/ st = stateBeginValueOrEmpty ->
  Z.of_nat (length stack) + 1 < maxNestingDepth ->
  plainAsset a = true ->
  scanAll (Scanner st (parseArrayValue es :: stack))
          (renderAsset a ++ rest)%list
  = scanAll (Scanner (stateEndValue (assetJSON a)) (parseArrayValue es :: stack))
            rest.
Proof.
  intros Hst Hd Hp. apply andb_prop in Hp as [Hn Hu].
  unfold renderAsset, quoted.
  change (text "{'Name':") with ["{"; x22; "N"; "a"; "m"; "e"; x22; ":"]%byte.
  change (text ",'url':") with [","; x22; "u"; "r"; "l"; x22; ":"]%byte.
  change (text "}") with ["}"]%byte.
  flatten.
  destruct Hst as [-> | ->].
  - scan_open. do 8 scan_byte.
    rewrite (scanAll_string _ _ _ Hn); do 8 scan_byte;
    rewrite (scanAll_string _ _ _ Hu); scan_byte; reflexivity.
  - scan_open. do 8 scan_byte.
    rewrite (scanAll_string _ _ _ Hn); do 8 scan_byte;
    rewrite (scanAll_string _ _ _ Hu); scan_byte; reflexivity.
Qed.

Lemma scanAll_renderAssets (l : list releaseAsset) (a : releaseAsset)
    (es : list json) (st : state) (stack : list frame) (rest : list byte) :
  st = stateBeginValue \/ st = stateBeginValueOrEmpty ->
  Z.of_nat (length stack) + 1 < maxNestingDepth ->
  forallb plainAsset (a :: l) = true ->
  scanAll (Scanner st (parseArrayValue es :: stack))
          (renderAssets (a :: l) ++ "]"%byte :: rest)%list
  = scanAll (popParseState
               (JArray (rev es ++ map assetJSON (a :: l))%list) stack)
            rest.
Proof.
  revert a es st. induction l as [|b l IH]; intros a es st Hst Hd Hp;
    cbn [forallb] in Hp; apply andb_prop in Hp as [Ha Hl].
  - cbn [renderAssets]. rewrite (scanAll_renderAsset _ _ _ _ _ Hst Hd Ha).
    scan_close. reflexivity.
  - change (renderAssets (a :: b :: l))
      with (renderAsset a ++ text "," ++ renderAssets (b :: l))%list.
    change (text ",") with [","]%byte. flatten.
    rewrite (scanAll_renderAsset _ _ _ _ _ Hst Hd Ha). scan_byte.
    rewrite (IH b (assetJSON a :: es) stateBeginValue (or_introl eq_refl) Hd Hl).
    cbn [rev map]. now rewrite <- app_assoc.
Qed.

(** The text of a release with plain strings is valid JSON and denotes
    the release. *)
Lemma checkValid_renderRelease (r : release) :
  plain (Tag r) = true ->
  forallb plainAsset (Assets r) = true ->
  checkValid (renderRelease r) = Some (releaseJSON r).
Proof.
  intros Ht Ha. unfold checkValid, renderRelease, quoted.
  change (text "{'tag_name':")
    with ["{"; x22; "t"; "a"; "g"; "_"; "n"; "a"; "m"; "e"; x22; ":"]%byte.
  change (text ",'Assets':[")
    with [","; x22; "A"; "s"; "s"; "e"; "t"; "s"; x22; ":"; "["]%byte.
  change (text "]}") with ["]"; "}"]%byte.
  flatten.
  scan_open. do 12 scan_byte. rewrite (scanAll_string _ _ _ Ht).
  do 10 scan_byte. scan_open.
  unfold releaseJSON. destruct (Assets r) as [|a l].
  - cbn [renderAssets app]. do 2 scan_byte. reflexivity.
  - rewrite scanAll_renderAssets;
      [| right; reflexivity | cbn [length]; unfold maxNestingDepth; lia
       | exact Ha].
    cbn [popParseState rev app]. scan_close. reflexivity.
Qed.
(** ** The release helpers *)

Lemma fetchLatestRelease_answered httpClient repo w resp :
  urlParses (latestReleaseURL repo) = true ->
  httpClient (GET (latestReleaseURL repo) ∅) = inl resp ->
  (fetchLatestRelease httpClient repo w).1 =
    if StatusCode resp >? 299
    then (None, Some (ErrHTTP (HandleHTTPError resp)))
    else decoded resp.
Proof.
  intros Hurl Hresp. unfold fetchLatestRelease.
  rewrite fetchLatestRelease_url, (NewRequest_GET _ Hurl). unfold Do.
  rewrite Hresp. unfold decoded.
  destruct (StatusCode resp >? 299); [reflexivity|].
  destruct (ReadAll (Body resp)) as [b [err|]]; [reflexivity|].
  destruct (Unmarshal b zeroRelease) as [r [err|]]; reflexivity.
Qed.

Lemma fetchReleaseFromTag_answered httpClient repo tagName w resp :
  urlParses (releaseByTagURL repo tagName) = true ->
  httpClient (GET (releaseByTagURL repo tagName) ∅) = inl resp ->
  (fetchReleaseFromTag httpClient repo tagName w).1 =
    if StatusCode resp =? 404 then (None, Some releaseNotFoundErr)
    else if StatusCode resp >? 299
         then (None, Some (ErrHTTP (HandleHTTPError resp)))
         else decoded resp.
Proof.
  intros Hurl Hresp. unfold fetchReleaseFromTag.
  rewrite fetchReleaseFromTag_url, (NewRequest_GET _ Hurl). unfold Do.
  rewrite Hresp. unfold decoded.
  destruct (StatusCode resp =? 404); [reflexivity|].
  destruct (StatusCode resp >? 299); [reflexivity|].
  destruct (ReadAll (Body resp)) as [b [err|]]; [reflexivity|].
  destruct (Unmarshal b zeroRelease) as [r [err|]]; reflexivity.
Qed.

(** A 2xx status passes both status tests. *)
Lemma is2xx_passes (status : Z) :
  is2xx status -> (status =? 404) = false /\ (status >? 299) = false.
Proof.
  intros [Hlo Hhi]. split.
  - apply Z.eqb_neq. lia.
  - destruct (Z.gtb_spec status 299); [lia|reflexivity].
Qed.

(** C3. For every repository identifier and tag name, once the request
    has been answered: on a 404 [fetchReleaseFromTag] returns no release
    and the sentinel [releaseNotFoundErr], one and the same value for all
    arguments, equal to itself under [==] and different from every API
    error and from the other sentinel; on a 200 whose body denotes a
    release it returns that release, tag and assets. *)
Theorem fetchReleaseFromTag_404_sentinel_200_release
    httpClient repo tagName w resp :
  urlParses (releaseByTagURL repo tagName) = true ->
  httpClient (GET (releaseByTagURL repo tagName) ∅) = inl resp ->
  (StatusCode resp = 404 ->
   (fetchReleaseFromTag httpClient repo tagName w).1
   = (None, Some releaseNotFoundErr))
  /\ (sameError releaseNotFoundErr releaseNotFoundErr = true
      /\ sameError commitNotFoundErr releaseNotFoundErr = false
      /\ forall e, releaseNotFoundErr <> ErrHTTP e
                   /\ sameError (ErrHTTP e) releaseNotFoundErr = false)
  /\ (forall body r,
        StatusCode resp = 200 ->
        Body resp = complete body ->
        checkValid body = Some (releaseJSON r) ->
        (fetchReleaseFromTag httpClient repo tagName w).1 = (Some r, None)).
Proof.
  intros Hurl Hresp.
  rewrite (fetchReleaseFromTag_answered _ _ _ _ _ Hurl Hresp).
  split; [|split].
  - intros ->. reflexivity.
  - split; [reflexivity|]. split; [reflexivity|].
    intros e. split; [discriminate|reflexivity].
  - intros body r Hst Hbody Hjson. rewrite Hst. cbn.
    exact (decoded_release _ _ _ Hbody Hjson).
Qed.

(** C8. For every 2xx response whose body denotes the JSON object with a
    [tag_name] string and an [Assets] array of objects with [Name] and
    [url] strings, [fetchLatestRelease] returns the release with that tag
    and, in order, those assets; for every 2xx response whose body is not
    well-formed JSON it returns no release and a [*json.SyntaxError]. *)
Theorem fetchLatestRelease_decodes httpClient repo w resp body :
  urlParses (latestReleaseURL repo) = true ->
  httpClient (GET (latestReleaseURL repo) ∅) = inl resp ->
  is2xx (StatusCode resp) ->
  Body resp = complete body ->
  (forall r, checkValid body = Some (releaseJSON r) ->
             (fetchLatestRelease httpClient repo w).1 = (Some r, None))
  /\ (checkValid body = None ->
      (fetchLatestRelease httpClient repo w).1 = (None, Some SyntaxError)).
Proof.
  intros Hurl Hresp H2xx Hbody.
  rewrite (fetchLatestRelease_answered _ _ _ _ Hurl Hresp).
  destruct (is2xx_passes _ H2xx) as [_ ->].
  split.
  - intros r Hjson. exact (decoded_release _ _ _ Hbody Hjson).
  - intros Hjson. exact (decoded_malformed _ _ Hbody Hjson).
Qed.

(** C10. For every 2xx response whose body is a well-formed JSON object
    none of whose keys names a field of the release (the body [{}] for
    one), [fetchLatestRelease] and [fetchReleaseFromTag] return nil error
    and a release with the empty tag and no assets. *)
Theorem release_fields_optional httpClient repo tagName w resp body members :
  is2xx (StatusCode resp) ->
  Body resp = complete body ->
  checkValid body = Some (JObject members) ->
  omitsReleaseFields members = true ->
  (urlParses (latestReleaseURL repo) = true ->
   httpClient (GET (latestReleaseURL repo) ∅) = inl resp ->
   (fetchLatestRelease httpClient repo w).1
   = (Some {| Tag := ""; Assets := [] |}, None))
  /\ (urlParses (releaseByTagURL repo tagName) = true ->
      httpClient (GET (releaseByTagURL repo tagName) ∅) = inl resp ->
      (fetchReleaseFromTag httpClient repo tagName w).1
      = (Some {| Tag := ""; Assets := [] |}, None)).
Proof.
  intros H2xx Hbody Hjson Homit.
  destruct (is2xx_passes _ H2xx) as [H404 H299].
  split; intros Hurl Hresp.
  - rewrite (fetchLatestRelease_answered _ _ _ _ Hurl Hresp), H299.
    exact (decoded_omitted _ _ _ Hbody Hjson Homit).
  - rewrite (fetchReleaseFromTag_answered _ _ _ _ _ Hurl Hresp), H404, H299.
    exact (decoded_omitted _ _ _ Hbody Hjson Homit).
Qed.

(** Both release helpers on the compact text of a release whose strings
    need no escaping: the release comes back. *)
Lemma fetchLatestRelease_rendered httpClient repo w (status : Z) (r : release) :
  urlParses (latestReleaseURL repo) = true ->
  httpClient (GET (latestReleaseURL repo) ∅)
  = inl {| StatusCode := status; Body := complete (renderRelease r) |} ->
  is2xx status ->
  plain (Tag r) = true ->
  forallb plainAsset (Assets r) = true ->
  (fetchLatestRelease httpClient repo w).1 = (Some r, None).
Proof.
  intros Hurl Hresp H2xx Ht Ha.
  rewrite (fetchLatestRelease_answered _ _ _ _ Hurl Hresp).
  cbn [StatusCode]. destruct (is2xx_passes _ H2xx) as [_ ->].
  apply (decoded_release _ (renderRelease r)); [reflexivity|].
  now apply checkValid_renderRelease.
Qed.

Lemma fetchReleaseFromTag_rendered httpClient repo tagName w (status : Z)
    (r : release) :
  urlParses (releaseByTagURL repo tagName) = true ->
  httpClient (GET (releaseByTagURL repo tagName) ∅)
  = inl {| StatusCode := status; Body := complete (renderRelease r) |} ->
  is2xx status ->
  plain (Tag r) = true ->
  forallb plainAsset (Assets r) = true ->
  (fetchReleaseFromTag httpClient repo tagName w).1 = (Some r, None).
Proof.
  intros Hurl Hresp H2xx Ht Ha.
  rewrite (fetchReleaseFromTag_answered _ _ _ _ _ Hurl Hresp).
  cbn [StatusCode]. destruct (is2xx_passes _ H2xx) as [-> ->].
  apply (decoded_release _ (renderRelease r)); [reflexivity|].
  now apply checkValid_renderRelease.
Qed.

(** ** The commit lookup *)

Lemma fetchCommitSHA_answered httpClient repo targetRef w resp :
  urlParses (commitURL repo targetRef) = true ->
  httpClient (GET (commitURL repo targetRef)
                  (accept "application/vnd.github.VERSION.sha")) = inl resp ->
  (fetchCommitSHA httpClient repo targetRef w).1 =
    if StatusCode resp =? 422 then ("", Some commitNotFoundErr)
    else if StatusCode resp >? 299
         then ("", Some (ErrHTTP (HandleHTTPError resp)))
         else match ReadAll (Body resp) with
              | (_, Some err) => ("", Some err)
              | (body, None) => (string_of_list_byte body, None)
              end.
Proof.
  intros Hurl Hresp. unfold fetchCommitSHA.
  rewrite fetchCommitSHA_url, (NewRequest_GET _ Hurl). unfold Do.
  cbn [Method URL header GET]. fold (accept "application/vnd.github.VERSION.sha").
  fold (GET (commitURL repo targetRef)
            (accept "application/vnd.github.VERSION.sha")).
  rewrite Hresp.
  destruct (StatusCode resp =? 422); [reflexivity|].
  destruct (StatusCode resp >? 299); [reflexivity|].
  destruct (ReadAll (Body resp)) as [b [err|]]; reflexivity.
Qed.

(** C4. For every repository identifier and ref, once the request has
    been answered: on a 422 [fetchCommitSHA] returns the empty string and
    the sentinel [commitNotFoundErr]; on a 200 it returns nil error and a
    string with exactly the bytes of the body, none trimmed. *)
Theorem fetchCommitSHA_422_sentinel_200_body httpClient repo targetRef w resp :
  urlParses (commitURL repo targetRef) = true ->
  httpClient (GET (commitURL repo targetRef)
                  (accept "application/vnd.github.VERSION.sha")) = inl resp ->
  (StatusCode resp = 422 ->
   (fetchCommitSHA httpClient repo targetRef w).1
   = ("", Some commitNotFoundErr))
  /\ (forall body,
        StatusCode resp = 200 ->
        Body resp = complete body ->
        exists sha,
          (fetchCommitSHA httpClient repo targetRef w).1 = (sha, None)
          /\ list_byte_of_string sha = body).
Proof.
  intros Hurl Hresp.
  rewrite (fetchCommitSHA_answered _ _ _ _ _ Hurl Hresp).
  split.
  - intros ->. reflexivity.
  - intros body Hst Hbody. rewrite Hst, Hbody. cbn.
    exists (string_of_list_byte body). split; [reflexivity|].
    apply list_byte_of_string_of_list_byte.
Qed.

(** ** The download *)

(** A failed [OpenFile] reports a path error for the path it was given. *)
Lemma OpenFile_error (name : string) (flag perm : Z) (disk : FileSystem)
    (e : error) :
  OpenFile name flag perm disk = inr e ->
  exists errno, e = PathError "open" name errno.
Proof.
  unfold OpenFile. intros Hopen.
  repeat match type of Hopen with
         | context [match ?x with _ => _ end] => destruct x
         end; inversion Hopen; eauto.
Qed.

(** However the open of the download succeeds, the handle carries the
    name it was given and stands at the start of a regular file that is
    now empty; a file that was missing has the requested mode less the
    bits of the umask, a file that was there was writable, keeps its mode
    and has given its bytes back to the device. No other file has
    changed. *)
Lemma OpenFile_opened (name : string) (perm : Z) (disk disk' : FileSystem)
    (f : OsFile) :
  OpenFile name downloadFlags perm disk = inl (f, disk') ->
  fname f = name /\ offset f = 0%nat
  /\ umask disk' = umask disk /\ cwd disk' = cwd disk
  /\ exists mode,
       nodes disk'
       = <[target f := Regular {| Mode := mode; Contents := [] |}]>
           (nodes disk)
       /\ match nodes disk !! target f with
          | None => mode = Z.ldiff perm (umask disk) /\ free disk' = free disk
          | Some (Regular old) =>
            mode = Mode old /\ hasFlag (Mode old) (oct 2 0 0) = true
            /\ free disk' = (free disk + length (Contents old))%nat
          | Some Directory => False
          end.
Proof.
  unfold OpenFile. intros Hopen.
  change (hasFlag downloadFlags O_TRUNC) with true in Hopen.
  change (hasFlag downloadFlags O_CREATE) with true in Hopen.
  cbv zeta in Hopen.
  repeat match type of Hopen with
         | context [match ?x with _ => _ end] => destruct x eqn:?
         end; try discriminate;
    inversion Hopen; subst; clear Hopen;
    cbn [fname offset target nodes umask cwd free];
    do 4 (split; [reflexivity|]); eexists; (split; [reflexivity|]);
    match goal with
    | Hnode : nodes disk !! _ = _ |- _ => rewrite Hnode
    end; auto.
Qed.

(** Copying a body into a file just opened empty leaves in it as many of
    the delivered bytes as the device takes, touches no other file, and
    fails with the error of the write when the device does not take them
    all, and with the failure of the body otherwise. *)
Lemma Copy_into_empty (f : OsFile) (mode : Z) (body : ReadCloser)
    (disk : FileSystem) :
  offset f = 0%nat ->
  nodes disk !! target f = Some (Regular {| Mode := mode; Contents := [] |}) ->
  Copy f body disk
  = ((Z.of_nat (length (take (free disk) (content body))),
      if (length (content body) <=? free disk)%nat
      then ErrRead <$> failure body
      else Some (PathError "write" (fname f) "no space left on device")),
     {| nodes := <[target f := Regular
                    {| Mode := mode;
                       Contents := take (free disk) (content body) |}]>
                   (nodes disk);
        umask := umask disk; cwd := cwd disk;
        free := free disk - length (take (free disk) (content body)) |}).
Proof.
  intros Hoff Hnode. unfold Copy, Write. rewrite Hnode, Hoff.
  cbn [Mode Contents length take drop replicate Nat.sub Nat.add app].
  rewrite drop_nil, app_nil_r, Nat.sub_0_r.
  now destruct (length (content body) <=? free disk)%nat.
Qed.

(** The error of a copy, if any, is that of a write or that of the
    body. *)
Lemma Copy_error (f : OsFile) (body : ReadCloser) (disk : FileSystem) :
  (Copy f body disk).1.2 = None
  \/ (exists msg, (Copy f body disk).1.2 = Some (ErrRead msg))
  \/ (exists errno,
        (Copy f body disk).1.2 = Some (PathError "write" (fname f) errno)).
Proof.
  unfold Copy, Write.
  destruct (nodes disk !! target f) as [[old|]|]; cbn [fst snd]; eauto.
  destruct (length (content body) <=? _)%nat; cbn [fst snd]; eauto.
  destruct (failure body); cbn; eauto.
Qed.

(** What [downloadAsset] does once the client has answered. *)
Lemma downloadAsset_answered httpClient (asset : releaseAsset)
    (destPath : string) w resp :
  urlParses (APIURL asset) = true ->
  httpClient (GET (APIURL asset) (accept "application/octet-stream"))
  = inl resp ->
  downloadAsset httpClient asset destPath w =
    let w' := {| fs := fs w;
                 sent := (sent w ++ [GET (APIURL asset)
                                         (accept "application/octet-stream")])%list |} in
    if StatusCode resp >? 299
    then (Some (ErrHTTP (HandleHTTPError resp)), w')
    else match OpenFile destPath downloadFlags (oct 7 5 5) (fs w) with
         | inr err => (Some err, w')
         | inl (f, disk) =>
           ((Copy f (Body resp) disk).1.2,
            {| fs := (Copy f (Body resp) disk).2; sent := sent w' |})
         end.
Proof.
  intros Hurl Hresp. unfold downloadAsset.
  rewrite (NewRequest_GET _ Hurl). unfold Do.
  cbn [Method URL header GET]. fold (accept "application/octet-stream").
  fold (GET (APIURL asset) (accept "application/octet-stream")).
  rewrite Hresp. cbn zeta.
  destruct (StatusCode resp >? 299); [reflexivity|].
  cbn [fs sent]. fold downloadFlags.
  destruct (OpenFile destPath downloadFlags (oct 7 5 5) (fs w))
    as [[f disk]|err]; [|reflexivity].
  now destruct (Copy f (Body resp) disk) as [[n err] disk'].
Qed.

(** The request of [downloadAsset] goes out as soon as its URL parses,
    whatever the client then does. *)
Lemma downloadAsset_sent httpClient (asset : releaseAsset)
    (destPath : string) w :
  urlParses (APIURL asset) = true ->
  sent (downloadAsset httpClient asset destPath w).2
  = (sent w ++ [GET (APIURL asset) (accept "application/octet-stream")])%list.
Proof.
  intros Hurl.
  destruct (httpClient (GET (APIURL asset)
                            (accept "application/octet-stream")))
    as [resp|err] eqn:Hresp.
  - rewrite (downloadAsset_answered _ _ _ _ _ Hurl Hresp). cbn zeta.
    destruct (StatusCode resp >? 299); [reflexivity|].
    now destruct (OpenFile _ _ _ _) as [[f disk]|e].
  - unfold downloadAsset. rewrite (NewRequest_GET _ Hurl). unfold Do.
    cbn [Method URL header GET]. fold (accept "application/octet-stream").
    fold (GET (APIURL asset) (accept "application/octet-stream")).
    now rewrite Hresp.
Qed.

(** What [downloadAsset] does once the status test is passed and the
    destination is open. *)
Lemma downloadAsset_copies httpClient (asset : releaseAsset)
    (destPath : string) w resp (f : OsFile) (disk : FileSystem) :
  urlParses (APIURL asset) = true ->
  httpClient (GET (APIURL asset) (accept "application/octet-stream"))
  = inl resp ->
  StatusCode resp <= 299 ->
  OpenFile destPath downloadFlags (oct 7 5 5) (fs w) = inl (f, disk) ->
  exists mode,
    nodes disk !! target f = Some (Regular {| Mode := mode; Contents := [] |})
    /\ match nodes (fs w) !! target f with
       | None => mode = Z.ldiff (oct 7 5 5) (umask (fs w))
       | Some (Regular old) => mode = Mode old
       | Some Directory => False
       end
    /\ (downloadAsset httpClient asset destPath w).1
       = (if (length (content (Body resp)) <=? free disk)%nat
          then ErrRead <$> failure (Body resp)
          else Some (PathError "write" destPath "no space left on device"))
    /\ nodes (fs (downloadAsset httpClient asset destPath w).2)
       = <[target f := Regular
             {| Mode := mode;
                Contents := take (free disk) (content (Body resp)) |}]>
           (nodes (fs w)).
Proof.
  intros Hurl Hresp Hle Hopen.
  rewrite (downloadAsset_answered _ _ _ _ _ Hurl Hresp). cbn zeta.
  destruct (Z.gtb_spec (StatusCode resp) 299) as [G|_]; [lia|].
  rewrite Hopen.
  destruct (OpenFile_opened _ _ _ _ _ Hopen)
    as [Hname [Hoff [_ [_ [mode [Hdisk Hmode]]]]]].
  assert (Hnode : nodes disk !! target f
                  = Some (Regular {| Mode := mode; Contents := [] |})).
  { rewrite Hdisk. apply lookup_insert_eq. }
  exists mode. split; [exact Hnode|]. split.
  { destruct (nodes (fs w) !! target f) as [[old|]|]; tauto. }
  rewrite (Copy_into_empty _ _ _ _ Hoff Hnode), Hname.
  cbn [fst snd fs nodes]. split; [reflexivity|].
  rewrite Hdisk. apply insert_insert_eq.
Qed.

(** Whatever the client does, a destination that cannot be opened is
    left alone, and so is the rest of the file system. *)
Lemma downloadAsset_open_fails_fs httpClient (asset : releaseAsset)
    (destPath : string) w (e : error) :
  OpenFile destPath downloadFlags (oct 7 5 5) (fs w) = inr e ->
  fs (downloadAsset httpClient asset destPath w).2 = fs w.
Proof.
  intros Hopen. unfold downloadAsset.
  destruct (NewRequest "GET" (APIURL asset)) as [req|err]; [|reflexivity].
  unfold Do. destruct (httpClient _) as [resp|err]; [|reflexivity].
  destruct (StatusCode resp >? 299); [reflexivity|].
  cbn [fs]. fold downloadFlags. now rewrite Hopen.
Qed.

(** C7. For every destination that cannot be opened for creation,
    [downloadAsset] writes nothing, the file system being afterwards what
    it was before, and, once a response that passes the status test has
    arrived, returns the path error of the failed open. *)
Theorem downloadAsset_open_fails httpClient (asset : releaseAsset)
    (destPath : string) w (e : error) :
  OpenFile destPath downloadFlags (oct 7 5 5) (fs w) = inr e ->
  fs (downloadAsset httpClient asset destPath w).2 = fs w
  /\ (exists errno, e = PathError "open" destPath errno)
  /\ (forall resp,
        urlParses (APIURL asset) = true ->
        httpClient (GET (APIURL asset) (accept "application/octet-stream"))
        = inl resp ->
        StatusCode resp <= 299 ->
        (downloadAsset httpClient asset destPath w).1 = Some e).
Proof.
  intros Hopen. split; [|split].
  - exact (downloadAsset_open_fails_fs _ _ _ _ _ Hopen).
  - exact (OpenFile_error _ _ _ _ _ Hopen).
  - intros resp Hurl Hresp Hle.
    rewrite (downloadAsset_answered _ _ _ _ _ Hurl Hresp). cbn zeta.
    destruct (Z.gtb_spec (StatusCode resp) 299) as [G|_]; [lia|].
    now rewrite Hopen.
Qed.

(** C9, as amended. The status is tested before the destination is
    opened: for every response with a status above 299 [downloadAsset]
    returns the translated API error and leaves the file system as it
    was; and whenever it returns an API error at all, the file system is
    as it was. *)
Theorem downloadAsset_api_error_keeps_fs httpClient (asset : releaseAsset)
    (destPath : string) w :
  (forall resp,
     urlParses (APIURL asset) = true ->
     httpClient (GET (APIURL asset) (accept "application/octet-stream"))
     = inl resp ->
     StatusCode resp > 299 ->
     (downloadAsset httpClient asset destPath w).1
     = Some (ErrHTTP (HandleHTTPError resp))
     /\ fs (downloadAsset httpClient asset destPath w).2 = fs w)
  /\ (forall e,
        (downloadAsset httpClient asset destPath w).1 = Some (ErrHTTP e) ->
        fs (downloadAsset httpClient asset destPath w).2 = fs w).
Proof.
  split.
  - intros resp Hurl Hresp Hgt.
    rewrite (downloadAsset_answered _ _ _ _ _ Hurl Hresp). cbn zeta.
    destruct (Z.gtb_spec (StatusCode resp) 299) as [_|G]; [|lia].
    split; reflexivity.
  - intros e. unfold downloadAsset.
    destruct (NewRequest "GET" (APIURL asset)) as [req|err]; [|reflexivity].
    unfold Do. destruct (httpClient _) as [resp|err]; [|reflexivity].
    destruct (StatusCode resp >? 299); [reflexivity|].
    cbn [fs].
    destruct (OpenFile _ _ _ _) as [[f disk]|err] eqn:Hopen; [|reflexivity].
    pose proof (Copy_error f (Body resp) disk) as Hcopy.
    destruct (Copy f (Body resp) disk) as [[n err'] disk'].
    cbn [fst snd] in *.
    destruct Hcopy as [-> | [[msg ->] | [errno ->]]]; discriminate.
Qed.

(** C6, as amended. For every asset whose URL [http.NewRequest]
    accepts and every destination path, [downloadAsset] sends one GET for
    the asset's URL with the header [Accept: application/octet-stream],
    whatever the client then answers. On a response with a status above
    299 it returns the translated API error. On a response with a status
    of at most 299 whose body arrives whole, when the open of the
    destination (create, write-only, truncate, requested mode 0755)
    succeeds and the device takes all the bytes of the body, it returns
    nil error and the opened file holds exactly the bytes of the body; a
    file that was missing has mode 0755 less the bits of the umask, and a
    file that was there keeps its mode. And whenever it returns nil
    error, the status was at most 299, the body arrived whole, the open
    succeeded, and the opened file holds exactly the bytes of the
    body. *)
Theorem downloadAsset_writes_body httpClient (asset : releaseAsset)
    (destPath : string) w :
  urlParses (APIURL asset) = true ->
  let result := downloadAsset httpClient asset destPath w in
  (exists req,
     sent result.2 = (sent w ++ [req])%list /\ Method req = "GET"
     /\ URL req = APIURL asset
     /\ header req !! "Accept" = Some ["application/octet-stream"])
  /\ forall resp,
       httpClient (GET (APIURL asset) (accept "application/octet-stream"))
       = inl resp ->
       (StatusCode resp > 299 ->
        result.1 = Some (ErrHTTP (HandleHTTPError resp)))
       /\ (forall body f disk,
             StatusCode resp <= 299 ->
             Body resp = complete body ->
             OpenFile destPath downloadFlags (oct 7 5 5) (fs w)
             = inl (f, disk) ->
             (length body <= free disk)%nat ->
             result.1 = None
             /\ (nodes (fs w) !! target f = None ->
                 nodes (fs result.2) !! target f
                 = Some (Regular
                           {| Mode := Z.ldiff (oct 7 5 5) (umask (fs w));
                              Contents := body |}))
             /\ (forall old,
                   nodes (fs w) !! target f = Some (Regular old) ->
                   nodes (fs result.2) !! target f
                   = Some (Regular {| Mode := Mode old;
                                      Contents := body |})))
       /\ (result.1 = None ->
           StatusCode resp <= 299
           /\ failure (Body resp) = None
           /\ exists f disk mode,
                OpenFile destPath downloadFlags (oct 7 5 5) (fs w)
                = inl (f, disk)
                /\ nodes (fs result.2) !! target f
                   = Some (Regular {| Mode := mode;
                                      Contents := content (Body resp) |})).
Proof.
  intros Hurl result. subst result. split.
  { exists (GET (APIURL asset) (accept "application/octet-stream")).
    split; [exact (downloadAsset_sent _ _ _ _ Hurl)|].
    split; [reflexivity|]. split; [reflexivity|]. apply lookup_insert_eq. }
  intros resp Hresp. split; [|split].
  - intros Hgt.
    rewrite (downloadAsset_answered _ _ _ _ _ Hurl Hresp). cbn zeta.
    destruct (Z.gtb_spec (StatusCode resp) 299) as [_|G]; [reflexivity|lia].
  - intros body f disk Hle Hbody Hopen Hroom.
    destruct (downloadAsset_copies _ _ _ _ _ _ _ Hurl Hresp Hle Hopen)
      as [mode [_ [Hmode [-> ->]]]].
    rewrite Hbody. cbn [content failure complete].
    apply Nat.leb_le in Hroom as Hfits. rewrite Hfits.
    rewrite firstn_all2 by exact Hroom.
    split; [reflexivity|]. split.
    + intros Hnone. rewrite Hnone in Hmode. subst mode.
      apply lookup_insert_eq.
    + intros old Hold. rewrite Hold in Hmode. subst mode.
      apply lookup_insert_eq.
  - intros Hnil.
    destruct (Z.gtb_spec (StatusCode resp) 299) as [G|Hle].
    { rewrite (downloadAsset_answered _ _ _ _ _ Hurl Hresp) in Hnil.
      cbn zeta in Hnil.
      destruct (Z.gtb_spec (StatusCode resp) 299); [discriminate|lia]. }
    destruct (OpenFile destPath downloadFlags (oct 7 5 5) (fs w))
      as [[f disk]|err] eqn:Hopen.
    + destruct (downloadAsset_copies _ _ _ _ _ _ _ Hurl Hresp Hle Hopen)
        as [mode [_ [_ [Herr Hnodes]]]].
      rewrite Herr in Hnil.
      destruct (Nat.leb_spec (length (content (Body resp))) (free disk))
        as [Hroom|_]; [|discriminate].
      destruct (failure (Body resp)); [discriminate|].
      split; [exact Hle|]. split; [reflexivity|].
      exists f, disk, mode. split; [reflexivity|].
      rewrite Hnodes, firstn_all2 by exact Hroom. apply lookup_insert_eq.
    + rewrite (downloadAsset_answered _ _ _ _ _ Hurl Hresp) in Hnil.
      cbn zeta in Hnil.
      destruct (Z.gtb_spec (StatusCode resp) 299); [lia|].
      rewrite Hopen in Hnil. discriminate.
Qed.

(** X19. A download that ends early, the status test passed and the
    destination opened. When the device takes the bytes that arrived but
    the body then breaks off, the error of the read is returned; when the
    device does not take them all, the error of the write is returned,
    for the path as it was given. Either way the file is not removed: it
    stays with the bytes that were written. *)
Lemma downloadAsset_interrupted httpClient (asset : releaseAsset)
    (destPath : string) w resp (f : OsFile) (disk : FileSystem) :
  urlParses (APIURL asset) = true ->
  httpClient (GET (APIURL asset) (accept "application/octet-stream"))
  = inl resp ->
  StatusCode resp <= 299 ->
  OpenFile destPath downloadFlags (oct 7 5 5) (fs w) = inl (f, disk) ->
  let result := downloadAsset httpClient asset destPath w in
  (forall msg,
     (length (content (Body resp)) <= free disk)%nat ->
     failure (Body resp) = Some msg ->
     result.1 = Some (ErrRead msg)
     /\ exists mode,
          nodes (fs result.2) !! target f
          = Some (Regular {| Mode := mode;
                             Contents := content (Body resp) |}))
  /\ ((free disk < length (content (Body resp)))%nat ->
      result.1 = Some (PathError "write" destPath "no space left on device")
      /\ exists mode,
           nodes (fs result.2) !! target f
           = Some (Regular
                     {| Mode := mode;
                        Contents := take (free disk)
                                         (content (Body resp)) |})).
Proof.
  intros Hurl Hresp Hle Hopen result. subst result.
  destruct (downloadAsset_copies _ _ _ _ _ _ _ Hurl Hresp Hle Hopen)
    as [mode [_ [_ [-> ->]]]].
  split.
  - intros msg Hroom Hfail.
    apply Nat.leb_le in Hroom as Hfits. rewrite Hfits, Hfail.
    split; [reflexivity|]. exists mode.
    rewrite firstn_all2 by exact Hroom. apply lookup_insert_eq.
  - intros Hfull.
    apply Nat.leb_gt in Hfull as Hnot. rewrite Hnot.
    split; [reflexivity|]. exists mode. apply lookup_insert_eq.
Qed.

(** X20. Whatever the client answers, the download changes no file but
    the one its destination resolves to: every other regular file and
    every directory is afterwards what it was before. *)
Lemma downloadAsset_other_paths httpClient (asset : releaseAsset)
    (destPath other : string) w :
  (forall f disk,
     OpenFile destPath downloadFlags (oct 7 5 5) (fs w) = inl (f, disk) ->
     other <> target f) ->
  nodes (fs (downloadAsset httpClient asset destPath w).2) !! other
  = nodes (fs w) !! other.
Proof.
  intros Hne. unfold downloadAsset.
  destruct (NewRequest "GET" (APIURL asset)) as [req|err]; [|reflexivity].
  unfold Do. destruct (httpClient _) as [resp|err]; [|reflexivity].
  destruct (StatusCode resp >? 299); [reflexivity|].
  cbn [fs]. fold downloadFlags.
  destruct (OpenFile _ _ _ _) as [[f disk]|err] eqn:Hopen; [|reflexivity].
  specialize (Hne f disk eq_refl).
  destruct (OpenFile_opened _ _ _ _ _ Hopen)
    as [Hname [Hoff [_ [_ [mode [Hdisk _]]]]]].
  assert (Hnode : nodes disk !! target f
                  = Some (Regular {| Mode := mode; Contents := [] |})).
  { rewrite Hdisk. apply lookup_insert_eq. }
  rewrite (Copy_into_empty _ _ _ _ Hoff Hnode). cbn [fs nodes snd].
  rewrite lookup_insert_ne by congruence.
  rewrite Hdisk. now rewrite lookup_insert_ne by congruence.
Qed.

(** ** The requests that are sent *)

Lemma issuesGET_one (url : string) (h : Header) w (disk : FileSystem) :
  urlParses url = true ->
  issuesGET url w {| fs := disk; sent := (sent w ++ [GET url h])%list |}.
Proof.
  intros Hurl. unfold issuesGET. rewrite Hurl.
  exists (GET url h). now repeat split.
Qed.

Lemma issuesGET_none (url : string) w :
  urlParses url = false -> issuesGET url w w.
Proof. intros Hurl. unfold issuesGET. now rewrite Hurl. Qed.

(** Splits on whether the URL parses, then follows every path of a
    helper after the request has gone out. *)
Ltac follow url :=
  destruct (urlParses url) eqn:Hurl;
  [ rewrite (NewRequest_GET _ Hurl); unfold Do;
    cbn [Method URL header GET];
    repeat match goal with
           | |- context [match ?x with _ => _ end] => destruct x
           end;
    cbn [snd fs sent]; apply issuesGET_one; exact Hurl
  | rewrite (NewRequest_GET_fails _ Hurl); apply issuesGET_none; exact Hurl ].

Lemma hasScript_request httpClient repo w :
  issuesGET (contentsURL repo) w (hasScript httpClient repo w).2.
Proof.
  unfold hasScript. rewrite hasScript_url. follow (contentsURL repo).
Qed.

Lemma fetchLatestRelease_request httpClient repo w :
  issuesGET (latestReleaseURL repo) w (fetchLatestRelease httpClient repo w).2.
Proof.
  unfold fetchLatestRelease. rewrite fetchLatestRelease_url.
  follow (latestReleaseURL repo).
Qed.

Lemma fetchReleaseFromTag_request httpClient repo tagName w :
  issuesGET (releaseByTagURL repo tagName) w
            (fetchReleaseFromTag httpClient repo tagName w).2.
Proof.
  unfold fetchReleaseFromTag. rewrite fetchReleaseFromTag_url.
  follow (releaseByTagURL repo tagName).
Qed.

Lemma fetchCommitSHA_request httpClient repo targetRef w :
  issuesGET (commitURL repo targetRef) w
            (fetchCommitSHA httpClient repo targetRef w).2.
Proof.
  unfold fetchCommitSHA. rewrite fetchCommitSHA_url.
  follow (commitURL repo targetRef).
Qed.

Lemma downloadAsset_request httpClient (asset : releaseAsset)
    (destPath : string) w :
  issuesGET (APIURL asset) w (downloadAsset httpClient asset destPath w).2.
Proof.
  destruct (urlParses (APIURL asset)) eqn:Hurl.
  - destruct (httpClient (GET (APIURL asset)
                              (accept "application/octet-stream")))
      as [resp|err] eqn:Hresp.
    + rewrite (downloadAsset_answered _ _ _ _ _ Hurl Hresp). cbn zeta.
      destruct (StatusCode resp >? 299);
        [|destruct (OpenFile _ _ _ _) as [[f disk]|e]];
        cbn [snd]; unfold issuesGET; rewrite Hurl; eexists;
        (split; [reflexivity | now split]).
    + unfold downloadAsset. rewrite (NewRequest_GET _ Hurl). unfold Do.
      cbn [Method URL header GET]. fold (accept "application/octet-stream").
      fold (GET (APIURL asset) (accept "application/octet-stream")).
      rewrite Hresp. cbn [snd].
      unfold issuesGET. rewrite Hurl. eexists.
      split; [reflexivity | now split].
  - unfold downloadAsset. rewrite (NewRequest_GET_fails _ Hurl).
    now apply issuesGET_none.
Qed.

(** C5, as amended. For every repository identifier with host h, owner o
    and name n, every tag t, ref r and asset: each of the five operations
    issues a GET request, the only request it hands to the client, whose
    URL is the REST prefix of h followed by [repos/o/n/contents/n] for
    the existence check, [repos/o/n/releases/latest] for the latest
    release, [repos/o/n/releases/tags/t] for the release by tag and
    [repos/o/n/commits/r] for the commit SHA, and the asset's own API URL
    for the download, provided [http.NewRequest] accepts that URL; when
    it rejects the URL, the operation issues no request. *)
Theorem five_operations_request_urls httpClient repo (tagName targetRef : string)
    (asset : releaseAsset) (destPath : string) w :
  issuesGET (RESTPrefix (RepoHost repo) ++ "repos/" ++ RepoOwner repo ++ "/"
               ++ RepoName repo ++ "/contents/" ++ RepoName repo)
            w (hasScript httpClient repo w).2
  /\ issuesGET (RESTPrefix (RepoHost repo) ++ "repos/" ++ RepoOwner repo ++ "/"
                  ++ RepoName repo ++ "/releases/latest")
               w (fetchLatestRelease httpClient repo w).2
  /\ issuesGET (RESTPrefix (RepoHost repo) ++ "repos/" ++ RepoOwner repo ++ "/"
                  ++ RepoName repo ++ "/releases/tags/" ++ tagName)
               w (fetchReleaseFromTag httpClient repo tagName w).2
  /\ issuesGET (RESTPrefix (RepoHost repo) ++ "repos/" ++ RepoOwner repo ++ "/"
                  ++ RepoName repo ++ "/commits/" ++ targetRef)
               w (fetchCommitSHA httpClient repo targetRef w).2
  /\ issuesGET (APIURL asset) w
               (downloadAsset httpClient asset destPath w).2.
Proof.
  repeat split.
  - apply hasScript_request.
  - apply fetchLatestRelease_request.
  - apply fetchReleaseFromTag_request.
  - apply fetchCommitSHA_request.
  - apply downloadAsset_request.
Qed.

End Properties.

(** * The properties at work on the stand-ins *)

Lemma hasScript_404_false_2xx_true_witness :
  (hasScript (respond testImports 404 (text "{'message': 'Not Found'}"))
             testRepo testWorld).1 = (false, None)
  /\ (hasScript (respond testImports 204 []) testRepo testWorld).1
     = (true, None).
Proof.
  split.
  - apply (hasScript_404_false_2xx_true (H := testImports)
             (respond testImports 404 (text "{'message': 'Not Found'}"))
             testRepo testWorld
             {| StatusCode := 404;
                Body := complete (text "{'message': 'Not Found'}") |});
      reflexivity.
  - apply (hasScript_404_false_2xx_true (H := testImports)
             (respond testImports 204 []) testRepo testWorld
             {| StatusCode := 204; Body := complete [] |});
      [reflexivity | reflexivity | unfold is2xx; cbn; lia].
Defined.

(** C2 fails as stated: 101 is neither 404 nor a 2xx status, and the
    existence check answers it with exists=true and no error. *)
Lemma hasScript_status_101_found :
  let resp := {| StatusCode := 101; Body := complete [] |} in
  StatusCode resp <> 404
  /\ ~ is2xx (StatusCode resp)
  /\ (hasScript (respond testImports 101 []) testRepo testWorld).1
     = (true, None)
  /\ (hasScript (respond testImports 101 []) testRepo testWorld).1
     <> (false, Some (ErrHTTP (H := testImports) (HandleHTTPError resp))).
Proof.
  cbn zeta. split; [cbn; lia|]. split; [unfold is2xx; cbn; lia|].
  split; [reflexivity | discriminate].
Qed.

Lemma hasScript_above_299_error_witness :
  (hasScript (respond testImports 500 (text "{'message': 'oops'}"))
             testRepo testWorld).1
  = (false, Some (ErrHTTP (H := testImports)
                          (500, text "{'message': 'oops'}"))).
Proof.
  apply (hasScript_above_299_error (H := testImports)
           (respond testImports 500 (text "{'message': 'oops'}"))
           testRepo testWorld
           {| StatusCode := 500;
              Body := complete (text "{'message': 'oops'}") |});
    [reflexivity | reflexivity | cbn; lia | cbn; lia].
Defined.

Lemma fetchReleaseFromTag_404_sentinel_200_release_witness :
  (fetchReleaseFromTag (respond testImports 404 []) testRepo "v9" testWorld).1
  = (None, Some releaseNotFoundErr)
  /\ (fetchReleaseFromTag (respond testImports 200 releaseBody)
                          testRepo "v1.0.0" testWorld).1
     = (Some testRelease, None).
Proof.
  split.
  - apply (fetchReleaseFromTag_404_sentinel_200_release (H := testImports)
             (respond testImports 404 []) testRepo "v9" testWorld
             {| StatusCode := 404; Body := complete [] |});
      reflexivity.
  - destruct (fetchReleaseFromTag_404_sentinel_200_release (H := testImports)
                (respond testImports 200 releaseBody) testRepo "v1.0.0"
                testWorld
                {| StatusCode := 200; Body := complete releaseBody |})
      as [_ [_ H200]]; [reflexivity | reflexivity |].
    apply (H200 releaseBody testRelease); reflexivity.
Defined.

Lemma fetchCommitSHA_422_sentinel_200_body_witness :
  (fetchCommitSHA (respond testImports 422 []) testRepo "nope" testWorld).1
  = ("", Some commitNotFoundErr)
  /\ exists sha,
       (fetchCommitSHA (respond testImports 200 shaBody)
                       testRepo "main" testWorld).1 = (sha, None)
       /\ list_byte_of_string sha = shaBody.
Proof.
  split.
  - apply (fetchCommitSHA_422_sentinel_200_body (H := testImports)
             (respond testImports 422 []) testRepo "nope" testWorld
             {| StatusCode := 422; Body := complete [] |});
      reflexivity.
  - destruct (fetchCommitSHA_422_sentinel_200_body (H := testImports)
                (respond testImports 200 shaBody) testRepo "main" testWorld
                {| StatusCode := 200; Body := complete shaBody |})
      as [_ H200]; [reflexivity | reflexivity |].
    apply H200; reflexivity.
Defined.

(** C5 fails as stated: for a repository whose name holds a line feed,
    and for an asset whose URL does, [http.NewRequest] builds no request,
    and the operation returns its error without calling the client. No
    GET request is issued, although the client would have answered. *)
Lemma no_request_for_unparsable_url :
  sent (hasScript (respond testImports 200 []) badRepo testWorld).2 = []
  /\ (~ exists req,
        In req (sent (hasScript (respond testImports 200 []) badRepo
                                testWorld).2)
        /\ Method req = "GET"
        /\ URL req = (@RESTPrefix testImports (RepoHost badRepo) ++ "repos/"
                      ++ RepoOwner badRepo ++ "/" ++ RepoName badRepo
                      ++ "/contents/" ++ RepoName badRepo))
  /\ (exists op url,
        (hasScript (respond testImports 200 []) badRepo testWorld).1
        = (false, Some (ErrURL op url)))
  /\ sent (downloadAsset (respond testImports 200 binary) badAsset
                         "/tmp/new" testWorld).2 = []
  /\ (~ exists req,
        In req (sent (downloadAsset (respond testImports 200 binary)
                                    badAsset "/tmp/new" testWorld).2)
        /\ Method req = "GET" /\ URL req = APIURL badAsset)
  /\ (exists op url,
        (downloadAsset (respond testImports 200 binary) badAsset "/tmp/new"
                       testWorld).1 = Some (ErrURL op url)).
Proof.
  assert (H1 : sent (hasScript (respond testImports 200 []) badRepo
                               testWorld).2 = []) by (vm_compute; reflexivity).
  assert (H2 : sent (downloadAsset (respond testImports 200 binary) badAsset
                                   "/tmp/new" testWorld).2 = [])
    by (vm_compute; reflexivity).
  split; [exact H1|]. split; [rewrite H1; intros [req [[] _]]|].
  split; [do 2 eexists; vm_compute; reflexivity|].
  split; [exact H2|]. split; [rewrite H2; intros [req [[] _]]|].
  do 2 eexists; vm_compute; reflexivity.
Qed.

(** C6 fails as stated, in several ways. A response with status 101 is
    not a 2xx response, and the download does not answer it with an API
    error but writes the file. The mode 0755 is only what is asked for:
    an existing file keeps the mode it had, and a new file loses the bits
    of the umask. For an asset whose URL cannot be parsed no GET is sent
    at all. And a response with status 200 does not always end with the
    body in the file and nil error: the destination may not open, the
    device may not take all the bytes, and the body may break off. *)
Lemma downloadAsset_status_101_and_modes :
  (~ is2xx 101
   /\ (downloadAsset (respond testImports 101 binary) testAsset "/tmp/new"
                     testWorld).1 = None
   /\ nodes (fs (downloadAsset (respond testImports 101 binary) testAsset
                               "/tmp/new" testWorld).2) !! "/tmp/new"
      = Some (Regular {| Mode := oct 7 5 5; Contents := binary |}))
  /\ ((downloadAsset (respond testImports 200 binary) testAsset "/tmp/old"
                     testWorld).1 = None
      /\ nodes (fs (downloadAsset (respond testImports 200 binary) testAsset
                                  "/tmp/old" testWorld).2) !! "/tmp/old"
         = Some (Regular {| Mode := oct 6 4 4; Contents := binary |}))
  /\ ((downloadAsset (respond testImports 200 binary) testAsset "/tmp/new"
                     {| fs := privateFS; sent := [] |}).1 = None
      /\ nodes (fs (downloadAsset (respond testImports 200 binary) testAsset
                                  "/tmp/new"
                                  {| fs := privateFS; sent := [] |}).2)
           !! "/tmp/new"
         = Some (Regular {| Mode := oct 7 0 0; Contents := binary |}))
  /\ sent (downloadAsset (respond testImports 200 binary) badAsset
                         "/tmp/new" testWorld).2 = []
  /\ downloadAsset (respond testImports 200 binary) testAsset "" testWorld
     = (Some (PathError "open" "" "no such file or directory"),
        {| fs := testFS;
           sent := [GET (APIURL testAsset)
                        (accept "application/octet-stream")] |})
  /\ ((downloadAsset (respond testImports 200 binary) testAsset "/tmp/new"
                     {| fs := fullFS; sent := [] |}).1
      = Some (PathError "write" "/tmp/new" "no space left on device")
      /\ nodes (fs (downloadAsset (respond testImports 200 binary) testAsset
                                  "/tmp/new"
                                  {| fs := fullFS; sent := [] |}).2)
           !! "/tmp/new"
         = Some (Regular {| Mode := oct 7 5 5;
                            Contents := [x7f; "E"; "L"]%byte |}))
  /\ ((downloadAsset
         (answer testImports
                 {| StatusCode := 200; Body := cutOff (take 4 binary) |})
         testAsset "/tmp/new" testWorld).1
      = Some (ErrRead "unexpected EOF")
      /\ nodes (fs (downloadAsset
                      (answer testImports
                              {| StatusCode := 200;
                                 Body := cutOff (take 4 binary) |})
                      testAsset "/tmp/new" testWorld).2) !! "/tmp/new"
         = Some (Regular {| Mode := oct 7 5 5;
                            Contents := [x7f; "E"; "L"; "F"]%byte |})).
Proof.
  split; [split; [unfold is2xx; lia|]|]; repeat split; vm_compute; reflexivity.
Qed.

Lemma downloadAsset_writes_body_witness :
  let result := downloadAsset (respond testImports 200 binary) testAsset
                              "/tmp/new" testWorld in
  (exists req,
     sent result.2 = [req] /\ Method req = "GET"
     /\ URL req = APIURL testAsset
     /\ header req !! "Accept" = Some ["application/octet-stream"])
  /\ result.1 = None
  /\ nodes (fs result.2) !! "/tmp/new"
     = Some (Regular {| Mode := oct 7 5 5; Contents := binary |}).
Proof.
  destruct (downloadAsset_writes_body (H := testImports)
              (respond testImports 200 binary) testAsset "/tmp/new" testWorld)
    as [Hreq Hresp]; [reflexivity|].
  split; [exact Hreq|].
  destruct (Hresp {| StatusCode := 200; Body := complete binary |} eq_refl)
    as [_ [Hbody _]].
  destruct (Hbody binary
              {| fname := "/tmp/new"; target := "/tmp/new"; offset := 0 |}
              {| nodes := <["/tmp/new" := Regular {| Mode := oct 7 5 5;
                                                     Contents := [] |}]>
                            (nodes testFS);
                 umask := oct 0 2 2; cwd := ["tmp"]; free := 4096 |})
    as [Hnil [Hnew _]];
    [cbn; lia | reflexivity | reflexivity
     | apply Nat.leb_le; vm_compute; reflexivity |].
  split; [exact Hnil|]. apply Hnew. reflexivity.
Defined.

Lemma downloadAsset_open_fails_witness :
  fs (downloadAsset (respond testImports 200 binary) testAsset
                    "/opt/gh/gh-hello" testWorld).2 = testFS
  /\ (downloadAsset (respond testImports 200 binary) testAsset
                    "/opt/gh/gh-hello" testWorld).1
     = Some (PathError "open" "/opt/gh/gh-hello" "no such file or directory").
Proof.
  destruct (downloadAsset_open_fails (H := testImports)
              (respond testImports 200 binary) testAsset "/opt/gh/gh-hello"
              testWorld
              (PathError "open" "/opt/gh/gh-hello" "no such file or directory"))
    as [Hfs [_ Herr]]; [reflexivity|].
  split; [exact Hfs|].
  apply (Herr {| StatusCode := 200; Body := complete binary |});
    [reflexivity | reflexivity | cbn; lia].
Defined.

Lemma fetchLatestRelease_decodes_witness :
  (fetchLatestRelease (respond testImports 200 releaseBody)
                      testRepo testWorld).1 = (Some testRelease, None)
  /\ (fetchLatestRelease (respond testImports 200 (text "<html>"))
                         testRepo testWorld).1 = (None, Some SyntaxError).
Proof.
  split.
  - destruct (fetchLatestRelease_decodes (H := testImports)
                (respond testImports 200 releaseBody) testRepo testWorld
                {| StatusCode := 200; Body := complete releaseBody |}
                releaseBody)
      as [Hok _];
      [reflexivity | reflexivity | unfold is2xx; cbn; lia | reflexivity |].
    apply Hok. reflexivity.
  - destruct (fetchLatestRelease_decodes (H := testImports)
                (respond testImports 200 (text "<html>")) testRepo testWorld
                {| StatusCode := 200; Body := complete (text "<html>") |}
                (text "<html>"))
      as [_ Hbad];
      [reflexivity | reflexivity | unfold is2xx; cbn; lia | reflexivity |].
    apply Hbad. reflexivity.
Defined.

(** C9 fails as stated: a response with status 101 is not a 2xx
    response, and the download creates the destination all the same. *)
Lemma downloadAsset_status_101_creates :
  ~ is2xx 101
  /\ nodes (fs testWorld) !! "/tmp/new" = None
  /\ nodes (fs (downloadAsset (respond testImports 101 binary) testAsset
                              "/tmp/new" testWorld).2) !! "/tmp/new"
     = Some (Regular {| Mode := oct 7 5 5; Contents := binary |})
  /\ fs (downloadAsset (respond testImports 101 binary) testAsset
                       "/tmp/new" testWorld).2 <> fs testWorld.
Proof.
  split; [unfold is2xx; lia|]. split; [reflexivity|].
  split; [vm_compute; reflexivity|].
  intros Heq.
  assert (Hnew : nodes (fs (downloadAsset (respond testImports 101 binary)
                                          testAsset "/tmp/new" testWorld).2)
                   !! "/tmp/new" = None)
    by (rewrite Heq; reflexivity).
  vm_compute in Hnew. discriminate.
Qed.

Lemma downloadAsset_api_error_keeps_fs_witness :
  (downloadAsset (respond testImports 503 []) testAsset "/tmp/old"
                 testWorld).1
  = Some (ErrHTTP (H := testImports) (503, []))
  /\ fs (downloadAsset (respond testImports 503 []) testAsset "/tmp/old"
                       testWorld).2 = testFS.
Proof.
  destruct (downloadAsset_api_error_keeps_fs (H := testImports)
              (respond testImports 503 []) testAsset "/tmp/old" testWorld)
    as [Hhigh Hany].
  destruct (Hhigh {| StatusCode := 503; Body := complete [] |})
    as [Herr _]; [reflexivity | reflexivity | cbn; lia |].
  split; [exact Herr|].
  exact (Hany _ Herr).
Defined.

Lemma release_fields_optional_witness :
  (fetchLatestRelease (respond testImports 200 (text "{}"))
                      testRepo testWorld).1
  = (Some {| Tag := ""; Assets := [] |}, None)
  /\ (fetchReleaseFromTag (respond testImports 200 (text "{}"))
                          testRepo "v1.0.0" testWorld).1
     = (Some {| Tag := ""; Assets := [] |}, None).
Proof.
  destruct (release_fields_optional (H := testImports)
              (respond testImports 200 (text "{}")) testRepo "v1.0.0"
              testWorld {| StatusCode := 200; Body := complete (text "{}") |}
              (text "{}") [])
    as [Hlatest Htag];
    [unfold is2xx; cbn; lia | reflexivity | reflexivity | reflexivity |].
  split; [apply Hlatest | apply Htag]; reflexivity.
Defined.

(** The sentinels are told apart by identity: another error with the
    same text is not the sentinel. *)
Example sentinels_compare_by_identity :
  sameError (H := testImports) releaseNotFoundErr releaseNotFoundErr = true
  /\ sameError (H := testImports)
               (errorString 3 "release not found") releaseNotFoundErr = false
  /\ sameError (H := testImports) commitNotFoundErr releaseNotFoundErr = false.
Proof. repeat split. Qed.

(** ** The decoder on sample bodies *)

(** A release as the upstream API sends it: lower-case keys, and members
    that [release] has no field for. *)
Example Unmarshal_upstream_shape :
  Unmarshal (H := testImports)
    (text "{'url': 'https://ghe.io/api/v3/repos/monalisa/gh-hello/releases/7', 'id': 7, 'tag_name': 'v2.0.0', 'name': 'Second', 'draft': false, 'assets': [{'url': 'https://ghe.io/api/v3/repos/monalisa/gh-hello/releases/assets/9', 'id': 9, 'name': 'gh-hello-darwin-amd64', 'size': 1024, 'uploader': null}]}")
    zeroRelease
  = ({| Tag := "v2.0.0";
        Assets := [{| Name := "gh-hello-darwin-amd64";
                      APIURL := "https://ghe.io/api/v3/repos/monalisa/gh-hello/releases/assets/9" |}] |},
     None).
Proof. vm_compute. reflexivity. Qed.

(** Escapes are resolved, a surrogate pair becomes one rune, a lone
    surrogate the replacement character. *)
Example checkValid_escapes :
  checkValid (text "'aé😀\ud83d\n\/'")
  = Some (JString (string_of_list_byte
            ["a"; xc3; xa9; xf0; x9f; x98; x80; xef; xbf; xbd; x0a; "/"]%byte)).
Proof. vm_compute. reflexivity. Qed.

(** Bytes that are not UTF-8 are replaced one by one. *)
Example checkValid_coerces_utf8 :
  checkValid [x22; xc3; x28; xe2; x82; xac; xff; x22]
  = Some (JString (string_of_list_byte
            [xef; xbf; xbd; "("; xe2; x82; xac; xef; xbf; xbd]%byte)).
Proof. vm_compute. reflexivity. Qed.

Example checkValid_rejects :
  map checkValid
      [text ""; text "{'tag_name': 'v1',}"; text "[1, 2"; text "012";
       text "1."; text "{'a' 1}"; text "{} {}"; text "tru"; text "'\x41'";
       [x22; x0a; x22]]
  = [None; None; None; None; None; None; None; None; None; None].
Proof. vm_compute. reflexivity. Qed.

Example checkValid_accepts :
  map checkValid
      [text " 12 "; text "-0.5e+3"; text "[ ]"; text "{ }";
       text "[true, false, null]"]
  = [Some (JNumber "12"); Some (JNumber "-0.5e+3"); Some (JArray []);
     Some (JObject []);
     Some (JArray [JBool true; JBool false; JNull])].
Proof. vm_compute. reflexivity. Qed.

(** A key given twice: the later value wins; keys are matched without
    regard to case, and the long s counts as an s. *)
Example Unmarshal_duplicate_and_folded_keys :
  Unmarshal (H := testImports)
    (text "{'tag_name': 'v1', 'TAG_NAME': 'v2', 'aſſets': [{'NAME': 'a'}]}")
    zeroRelease
  = ({| Tag := "v2"; Assets := [{| Name := "a"; APIURL := "" |}] |}, None).
Proof. vm_compute. reflexivity. Qed.

(** Values of the wrong kind are type errors, [null] is not. *)
Example Unmarshal_type_errors :
  map (fun body => (Unmarshal (H := testImports) (text body) zeroRelease).2)
      ["[]"; "'v1'"; "7"; "{'tag_name': 7}"; "{'Assets': {}}";
       "{'Assets': [3]}"; "null"; "{'tag_name': null, 'Assets': null}"]
  = [Some (UnmarshalTypeError "array" "extension.release");
     Some (UnmarshalTypeError "string" "extension.release");
     Some (UnmarshalTypeError "number" "extension.release");
     Some (UnmarshalTypeError "number" "string");
     Some (UnmarshalTypeError "object" "[]extension.releaseAsset");
     Some (UnmarshalTypeError "number" "extension.releaseAsset");
     None; None].
Proof. vm_compute. reflexivity. Qed.

(** The five requests, for one repository. *)
Example sent_requests :
  map URL
      (sent (hasScript (respond testImports 200 []) testRepo testWorld).2
       ++ sent (fetchLatestRelease (respond testImports 200 []) testRepo
                                   testWorld).2
       ++ sent (fetchReleaseFromTag (respond testImports 200 []) testRepo
                                    "v1.0.0" testWorld).2
       ++ sent (fetchCommitSHA (respond testImports 200 []) testRepo "trunk"
                               testWorld).2
       ++ sent (downloadAsset (respond testImports 200 []) testAsset
                              "/tmp/new" testWorld).2)%list
  = ["https://ghe.io/api/v3/repos/monalisa/gh-hello/contents/gh-hello";
     "https://ghe.io/api/v3/repos/monalisa/gh-hello/releases/latest";
     "https://ghe.io/api/v3/repos/monalisa/gh-hello/releases/tags/v1.0.0";
     "https://ghe.io/api/v3/repos/monalisa/gh-hello/commits/trunk";
     "https://ghe.io/api/v3/repos/monalisa/gh-hello/releases/assets/1"].
Proof. vm_compute. reflexivity. Qed.

(** A repository name with a control character: no request can be built,
    and nothing is sent. *)
Example hasScript_unparsable_url :
  hasScript (respond testImports 200 [])
            {| owner := "monalisa"; name := String "010" "x"; host := "ghe.io" |}
            testWorld
  = ((false,
      Some (ErrURL "parse"
              (String.append
                 "https://ghe.io/api/v3/repos/monalisa/"
                 (String "010"
                    (String.append "x/contents/" (String "010" "x")))))),
     testWorld).
Proof. vm_compute. reflexivity. Qed.

(** ** Names of files *)

(** The names [os.OpenFile] refuses in [testFS], each with its errno. *)
Example OpenFile_refused :
  map (fun name => OpenFile (H := testImports) name downloadFlags (oct 7 5 5)
                            testFS)
      [""; String Ascii.zero "x"; "/"; "."; "/tmp"; "/tmp/"; "/tmp/new/";
       "/tmp/old/"; "/tmp/.."; "/opt/x"; "/tmp/old/x"; "/tmp/old/../new"]
  = map (fun entry => inr (PathError "open" entry.1 entry.2))
      [("", "no such file or directory");
       (String Ascii.zero "x", "invalid argument");
       ("/", "is a directory");
       (".", "is a directory");
       ("/tmp", "is a directory");
       ("/tmp/", "is a directory");
       ("/tmp/new/", "is a directory");
       ("/tmp/old/", "is a directory");
       ("/tmp/..", "is a directory");
       ("/opt/x", "no such file or directory");
       ("/tmp/old/x", "not a directory");
       ("/tmp/old/../new", "not a directory")].
Proof. vm_compute. reflexivity. Qed.

(** The names that stand for the file [/tmp/old] in [testFS], whose
    working directory is [/tmp]. *)
Example OpenFile_resolves :
  map (fun name =>
         match OpenFile (H := testImports) name downloadFlags (oct 7 5 5)
                        testFS with
         | inl (f, _) => Some (fname f, target f)
         | inr _ => None
         end)
      ["/tmp/old"; "/tmp//old"; "/tmp/./old"; "//tmp/old"; "old"; "./old";
       "../tmp/old"; "/../tmp/old"; "/tmp/../tmp/old"]
  = map (fun name => Some (name, "/tmp/old"))
      ["/tmp/old"; "/tmp//old"; "/tmp/./old"; "//tmp/old"; "old"; "./old";
       "../tmp/old"; "/../tmp/old"; "/tmp/../tmp/old"].
Proof. vm_compute. reflexivity. Qed.

(** A download to a name with a doubled separator rewrites the file the
    name stands for. *)
Example downloadAsset_through_alias :
  nodes (fs (downloadAsset (respond testImports 200 binary) testAsset
                           "/tmp//old" testWorld).2)
  = {[ "/tmp" := Directory;
       "/tmp/old" := Regular {| Mode := oct 6 4 4; Contents := binary |} ]}.
Proof. vm_compute. reflexivity. Qed.

(** * Further properties of the helpers *)

Section Further.
Context `{Imports} {R : Type} `{!ghrepo.Interface R}.
Implicit Types (httpClient : Client) (repo : R) (w : World) (resp : Response).

(** Follows a helper through all its paths. *)
Ltac paths :=
  repeat match goal with
         | |- context [match ?x with _ => _ end] => destruct x
         end.

(** X1. The four helpers that only look something up never touch the
    file system, whatever the client answers. *)
Theorem lookups_leave_files httpClient repo (tagName targetRef : string) w :
  fs (hasScript httpClient repo w).2 = fs w
  /\ fs (fetchLatestRelease httpClient repo w).2 = fs w
  /\ fs (fetchReleaseFromTag httpClient repo tagName w).2 = fs w
  /\ fs (fetchCommitSHA httpClient repo targetRef w).2 = fs w.
Proof.
  unfold hasScript, fetchLatestRelease, fetchReleaseFromTag, fetchCommitSHA, Do.
  repeat split; paths; reflexivity.
Qed.

(** X2. The two release helpers return either a release and nil error,
    or no release and an error: never both, never neither. *)
Theorem release_or_error httpClient repo (tagName : string) w :
  let exclusive (res : option release * option error) :=
    (is_Some res.1 /\ res.2 = None) \/ (res.1 = None /\ is_Some res.2) in
  exclusive (fetchLatestRelease httpClient repo w).1
  /\ exclusive (fetchReleaseFromTag httpClient repo tagName w).1.
Proof.
  cbn zeta. unfold fetchLatestRelease, fetchReleaseFromTag, Do.
  split; paths; cbn [fst snd]; eauto.
Qed.

(** X3. [hasScript] reports a script only together with nil error, and
    [fetchCommitSHA] returns the empty string whenever it returns an
    error. *)
Theorem found_and_sha_only_without_error httpClient repo (targetRef : string) w :
  ((hasScript httpClient repo w).1.1 = true ->
   (hasScript httpClient repo w).1.2 = None)
  /\ (forall e,
        (fetchCommitSHA httpClient repo targetRef w).1.2 = Some e ->
        (fetchCommitSHA httpClient repo targetRef w).1.1 = "").
Proof.
  unfold hasScript, fetchCommitSHA, Do.
  split; [|intros e]; paths; cbn [fst snd]; congruence.
Qed.

(** ** The errors of the decoder *)

Section DecoderInvariant.

(** A property of the saved error that recording a type error keeps. *)
Variable Q : option error -> Prop.
Hypothesis Q_saveError : forall saved value type,
  Q saved -> Q (saveError saved (UnmarshalTypeError value type)).

Lemma storeString_inv (v : json) (cur : string) (saved : option error) :
  Q saved -> Q (storeString v cur saved).2.
Proof.
  intros Hs. destruct v; cbn [storeString snd]; try exact Hs;
    now apply Q_saveError.
Qed.

Lemma storeAssetField_inv (st : releaseAsset * option error)
    (m : string * json) :
  Q st.2 -> Q (storeAssetField st m).2.
Proof.
  destruct st as [a saved], m as [key v]. cbn [snd]. intros Hs.
  unfold storeAssetField.
  destruct (equalFold "Name" key).
  - pose proof (storeString_inv v (Name a) saved Hs) as Hok.
    destruct (storeString v (Name a) saved). exact Hok.
  - destruct (equalFold "url" key); [|exact Hs].
    pose proof (storeString_inv v (APIURL a) saved Hs) as Hok.
    destruct (storeString v (APIURL a) saved). exact Hok.
Qed.

Lemma fold_left_inv {A B : Type}
    (f : A * option error -> B -> A * option error)
    (l : list B) (st : A * option error) :
  (forall st m, Q st.2 -> Q (f st m).2) ->
  Q st.2 -> Q (fold_left f l st).2.
Proof.
  intros Hf. revert st. induction l as [|m l IH]; intros st Hs; [exact Hs|].
  cbn [fold_left]. apply IH, Hf, Hs.
Qed.

Lemma decodeAsset_inv (v : json) (cur : releaseAsset) (saved : option error) :
  Q saved -> Q (decodeAsset v cur saved).2.
Proof.
  intros Hs. destruct v; cbn [decodeAsset snd]; try exact Hs;
    try (now apply Q_saveError).
  apply (fold_left_inv storeAssetField); [apply storeAssetField_inv | exact Hs].
Qed.

Lemma decodeElems_inv (elems : list json) (cur : list releaseAsset)
    (saved : option error) :
  Q saved -> Q (decodeElems elems cur saved).2.
Proof.
  revert cur saved. induction elems as [|v elems IH]; intros cur saved Hs;
    [exact Hs|].
  cbn [decodeElems].
  pose proof (decodeAsset_inv v (hd zeroAsset cur) saved Hs) as Ha.
  destruct (decodeAsset v (hd zeroAsset cur) saved) as [a saved1].
  pose proof (IH (tl cur) saved1 Ha) as Hl.
  destruct (decodeElems elems (tl cur) saved1) as [l saved2]. exact Hl.
Qed.

Lemma decodeAssets_inv (v : json) (cur : list releaseAsset)
    (saved : option error) :
  Q saved -> Q (decodeAssets v cur saved).2.
Proof.
  intros Hs. destruct v; cbn [decodeAssets snd]; try exact Hs;
    try (now apply Q_saveError).
  now apply decodeElems_inv.
Qed.

Lemma storeReleaseField_inv (st : release * option error)
    (m : string * json) :
  Q st.2 -> Q (storeReleaseField st m).2.
Proof.
  destruct st as [r saved], m as [key v]. cbn [snd]. intros Hs.
  unfold storeReleaseField.
  destruct (equalFold "tag_name" key).
  - pose proof (storeString_inv v (Tag r) saved Hs) as Hok.
    destruct (storeString v (Tag r) saved). exact Hok.
  - destruct (equalFold "Assets" key); [|exact Hs].
    pose proof (decodeAssets_inv v (Assets r) saved Hs) as Hok.
    destruct (decodeAssets v (Assets r) saved). exact Hok.
Qed.

Lemma decodeRelease_inv (v : json) (cur : release) (saved : option error) :
  Q saved -> Q (decodeRelease v cur saved).2.
Proof.
  intros Hs. destruct v; cbn [decodeRelease snd]; try exact Hs;
    try (now apply Q_saveError).
  apply (fold_left_inv storeReleaseField);
    [apply storeReleaseField_inv | exact Hs].
Qed.

End DecoderInvariant.

(** While decoding, the saved error is absent or an error of the body. *)
Local Abbreviation saved_ok saved :=
  (forall e, saved = Some e -> bodyError e).

Lemma saveError_ok (saved : option error) (value type : string) :
  saved_ok saved -> saved_ok (saveError saved (UnmarshalTypeError value type)).
Proof.
  intros Hs e. destruct saved as [e0|]; cbn.
  - exact (Hs e).
  - intros [= <-]. exact I.
Qed.

(** Once an error is saved, one stays saved. *)
Lemma saveError_is_Some (saved : option error) (value type : string) :
  is_Some saved -> is_Some (saveError saved (UnmarshalTypeError value type)).
Proof. intros [e0 ->]. cbn. eauto. Qed.

Lemma Unmarshal_ok (data : list byte) (r : release) :
  saved_ok (Unmarshal data r).2.
Proof.
  unfold Unmarshal. destruct (checkValid data) as [v|].
  - apply (decodeRelease_inv (fun saved => saved_ok saved) saveError_ok).
    discriminate.
  - intros e [= <-]. exact I.
Qed.

(** Whatever [decoded] reports is an error of the body. *)
Lemma decoded_ok (resp : Response) : saved_ok (decoded resp).2.
Proof.
  unfold decoded, ReadAll.
  destruct (failure (Body resp)) as [msg|]; cbn [fmap option_fmap option_map].
  - intros e [= <-]. exact I.
  - pose proof (Unmarshal_ok (content (Body resp)) zeroRelease) as Hu.
    destruct (Unmarshal (content (Body resp)) zeroRelease) as [r [e0|]];
      cbn [snd] in *; [exact Hu | discriminate].
Qed.

(** ** Failures before a response arrives *)

(** The request each helper builds for a URL that parses. *)
Lemma accept_request (url value : string) :
  {| Method := Method (GET url ∅); URL := URL (GET url ∅);
     header := Header_Set "Accept" value (header (GET url ∅)) |}
  = GET url (accept value).
Proof. reflexivity. Qed.

(** X4. A failure of the transport is handed back as it is, not wrapped
    and not translated, by each of the five helpers, with no release, no
    SHA and no script reported; the download leaves the file system
    alone. *)
Theorem transport_error_passed_on httpClient repo (tagName targetRef : string)
    (asset : releaseAsset) (destPath : string) w (e : error) :
  (urlParses (contentsURL repo) = true ->
   httpClient (GET (contentsURL repo) ∅) = inr e ->
   (hasScript httpClient repo w).1 = (false, Some e))
  /\ (urlParses (latestReleaseURL repo) = true ->
      httpClient (GET (latestReleaseURL repo) ∅) = inr e ->
      (fetchLatestRelease httpClient repo w).1 = (None, Some e))
  /\ (urlParses (releaseByTagURL repo tagName) = true ->
      httpClient (GET (releaseByTagURL repo tagName) ∅) = inr e ->
      (fetchReleaseFromTag httpClient repo tagName w).1 = (None, Some e))
  /\ (urlParses (commitURL repo targetRef) = true ->
      httpClient (GET (commitURL repo targetRef)
                      (accept "application/vnd.github.VERSION.sha")) = inr e ->
      (fetchCommitSHA httpClient repo targetRef w).1 = ("", Some e))
  /\ (urlParses (APIURL asset) = true ->
      httpClient (GET (APIURL asset) (accept "application/octet-stream"))
      = inr e ->
      (downloadAsset httpClient asset destPath w).1 = Some e
      /\ fs (downloadAsset httpClient asset destPath w).2 = fs w).
Proof.
  split; [|split; [|split; [|split]]]; intros Hurl Herr; [| | | |split].
  - unfold hasScript. rewrite hasScript_url, (NewRequest_GET _ Hurl).
    unfold Do. now rewrite Herr.
  - unfold fetchLatestRelease.
    rewrite fetchLatestRelease_url, (NewRequest_GET _ Hurl).
    unfold Do. now rewrite Herr.
  - unfold fetchReleaseFromTag.
    rewrite fetchReleaseFromTag_url, (NewRequest_GET _ Hurl).
    unfold Do. now rewrite Herr.
  - unfold fetchCommitSHA.
    rewrite fetchCommitSHA_url, (NewRequest_GET _ Hurl), accept_request.
    unfold Do. now rewrite Herr.
  - unfold downloadAsset. rewrite (NewRequest_GET _ Hurl), accept_request.
    unfold Do. now rewrite Herr.
  - unfold downloadAsset. rewrite (NewRequest_GET _ Hurl), accept_request.
    unfold Do. now rewrite Herr.
Qed.

(** X5. When no request can be built for the URL, each helper returns
    the error of [http.NewRequest], which names that URL, and changes
    nothing: no request is sent and no file is touched. *)
Theorem unparsable_url_changes_nothing httpClient repo
    (tagName targetRef : string) (asset : releaseAsset) (destPath : string) w :
  (urlParses (contentsURL repo) = false ->
   hasScript httpClient repo w
   = ((false, Some (ErrURL "parse" (contentsURL repo))), w))
  /\ (urlParses (latestReleaseURL repo) = false ->
      fetchLatestRelease httpClient repo w
      = ((None, Some (ErrURL "parse" (latestReleaseURL repo))), w))
  /\ (urlParses (releaseByTagURL repo tagName) = false ->
      fetchReleaseFromTag httpClient repo tagName w
      = ((None, Some (ErrURL "parse" (releaseByTagURL repo tagName))), w))
  /\ (urlParses (commitURL repo targetRef) = false ->
      fetchCommitSHA httpClient repo targetRef w
      = (("", Some (ErrURL "parse" (commitURL repo targetRef))), w))
  /\ (urlParses (APIURL asset) = false ->
      downloadAsset httpClient asset destPath w
      = (Some (ErrURL "parse" (APIURL asset)), w)).
Proof.
  split; [|split; [|split; [|split]]]; intros Hurl.
  - unfold hasScript. now rewrite hasScript_url, (NewRequest_GET_fails _ Hurl).
  - unfold fetchLatestRelease.
    now rewrite fetchLatestRelease_url, (NewRequest_GET_fails _ Hurl).
  - unfold fetchReleaseFromTag.
    now rewrite fetchReleaseFromTag_url, (NewRequest_GET_fails _ Hurl).
  - unfold fetchCommitSHA.
    now rewrite fetchCommitSHA_url, (NewRequest_GET_fails _ Hurl).
  - unfold downloadAsset. now rewrite (NewRequest_GET_fails _ Hurl).
Qed.

(** ** The status tests *)

Lemma gtb_299 (status : Z) : (status >? 299) = true <-> status > 299.
Proof. destruct (Z.gtb_spec status 299); split; intros; try lia; easy. Qed.

(** X6. [fetchLatestRelease] has no not-found case: once the request is
    answered, every status above 299, 404 included, gives the translated
    API error; with any other status the only errors are those of the
    body; and in no case is the error one of the two sentinels. *)
Theorem fetchLatestRelease_no_sentinel httpClient repo w resp :
  urlParses (latestReleaseURL repo) = true ->
  httpClient (GET (latestReleaseURL repo) ∅) = inl resp ->
  (StatusCode resp > 299 ->
   (fetchLatestRelease httpClient repo w).1
   = (None, Some (ErrHTTP (HandleHTTPError resp))))
  /\ (StatusCode resp <= 299 ->
      forall e, (fetchLatestRelease httpClient repo w).1.2 = Some e ->
                bodyError e)
  /\ (fetchLatestRelease httpClient repo w).1.2 <> Some releaseNotFoundErr
  /\ (fetchLatestRelease httpClient repo w).1.2 <> Some commitNotFoundErr.
Proof.
  intros Hurl Hresp.
  rewrite (fetchLatestRelease_answered _ _ _ _ Hurl Hresp).
  destruct (StatusCode resp >? 299) eqn:Hgt.
  - apply gtb_299 in Hgt. repeat split; try discriminate. lia.
  - assert (Hle : ~ StatusCode resp > 299) by (rewrite <- gtb_299; congruence).
    split; [intros; lia|]. split; [intros _; apply decoded_ok|].
    split; intros Heq; now apply decoded_ok in Heq.
Qed.

(** X7. Once the request is answered, [fetchReleaseFromTag] returns the
    release sentinel exactly when the status is 404, and
    [fetchCommitSHA] returns the commit sentinel exactly when the status
    is 422. *)
Theorem sentinel_iff_status httpClient repo (tagName targetRef : string) w
    resp :
  (urlParses (releaseByTagURL repo tagName) = true ->
   httpClient (GET (releaseByTagURL repo tagName) ∅) = inl resp ->
   ((fetchReleaseFromTag httpClient repo tagName w).1.2
    = Some releaseNotFoundErr <-> StatusCode resp = 404))
  /\ (urlParses (commitURL repo targetRef) = true ->
      httpClient (GET (commitURL repo targetRef)
                      (accept "application/vnd.github.VERSION.sha"))
      = inl resp ->
      ((fetchCommitSHA httpClient repo targetRef w).1.2
       = Some commitNotFoundErr <-> StatusCode resp = 422)).
Proof.
  split; intros Hurl Hresp.
  - rewrite (fetchReleaseFromTag_answered _ _ _ _ _ Hurl Hresp).
    destruct (Z.eqb_spec (StatusCode resp) 404) as [E|N]; [easy|].
    destruct (StatusCode resp >? 299); cbn [snd].
    + split; [discriminate | contradiction].
    + split; [|contradiction]. intros Heq. now apply decoded_ok in Heq.
  - rewrite (fetchCommitSHA_answered _ _ _ _ _ Hurl Hresp).
    destruct (Z.eqb_spec (StatusCode resp) 422) as [E|N]; [easy|].
    destruct (StatusCode resp >? 299); cbn [snd].
    + split; [discriminate | contradiction].
    + unfold ReadAll.
      destruct (failure (Body resp));
        (split; [discriminate | contradiction]).
Qed.

(** X8. Every other status above 299 is a translated API error: a 422
    or a 500 for a release by tag, a 404 or a 500 for a commit. *)
Theorem other_statuses_are_api_errors httpClient repo
    (tagName targetRef : string) w resp :
  StatusCode resp > 299 ->
  (urlParses (releaseByTagURL repo tagName) = true ->
   httpClient (GET (releaseByTagURL repo tagName) ∅) = inl resp ->
   StatusCode resp <> 404 ->
   (fetchReleaseFromTag httpClient repo tagName w).1
   = (None, Some (ErrHTTP (HandleHTTPError resp))))
  /\ (urlParses (commitURL repo targetRef) = true ->
      httpClient (GET (commitURL repo targetRef)
                      (accept "application/vnd.github.VERSION.sha"))
      = inl resp ->
      StatusCode resp <> 422 ->
      (fetchCommitSHA httpClient repo targetRef w).1
      = ("", Some (ErrHTTP (HandleHTTPError resp)))).
Proof.
  intros Hgt. apply gtb_299 in Hgt. split; intros Hurl Hresp Hne.
  - rewrite (fetchReleaseFromTag_answered _ _ _ _ _ Hurl Hresp), Hgt.
    now destruct (Z.eqb_spec (StatusCode resp) 404).
  - rewrite (fetchCommitSHA_answered _ _ _ _ _ Hurl Hresp), Hgt.
    now destruct (Z.eqb_spec (StatusCode resp) 422).
Qed.

(** X9. [hasScript] reports a script exactly for the statuses up to 299
    other than 404; there is no lower bound. *)
Theorem hasScript_true_iff httpClient repo w resp :
  urlParses (contentsURL repo) = true ->
  httpClient (GET (contentsURL repo) ∅) = inl resp ->
  ((hasScript httpClient repo w).1.1 = true
   <-> StatusCode resp <> 404 /\ StatusCode resp <= 299).
Proof.
  intros Hurl Hresp. rewrite (hasScript_answered _ _ _ _ Hurl Hresp).
  destruct (Z.eqb_spec (StatusCode resp) 404) as [E|N].
  - cbn. split; [discriminate | intros [Hne _]; contradiction].
  - destruct (Z.gtb_spec (StatusCode resp) 299); cbn.
    + split; [discriminate | lia].
    + split; [intros _; split; [exact N | lia] | reflexivity].
Qed.

(** ** What goes out with a request *)

(** X10. The three helpers that read JSON send their request without any
    header field; [fetchCommitSHA] sends exactly one, the [Accept] that
    asks for the bare SHA. *)
Theorem request_headers httpClient repo (tagName targetRef : string) w :
  (urlParses (contentsURL repo) = true ->
   sent (hasScript httpClient repo w).2
   = (sent w ++ [GET (contentsURL repo) ∅])%list)
  /\ (urlParses (latestReleaseURL repo) = true ->
      sent (fetchLatestRelease httpClient repo w).2
      = (sent w ++ [GET (latestReleaseURL repo) ∅])%list)
  /\ (urlParses (releaseByTagURL repo tagName) = true ->
      sent (fetchReleaseFromTag httpClient repo tagName w).2
      = (sent w ++ [GET (releaseByTagURL repo tagName) ∅])%list)
  /\ (urlParses (commitURL repo targetRef) = true ->
      sent (fetchCommitSHA httpClient repo targetRef w).2
      = (sent w ++ [GET (commitURL repo targetRef)
                        {["Accept" := ["application/vnd.github.VERSION.sha"]]}])%list).
Proof.
  split; [|split; [|split]]; intros Hurl.
  - unfold hasScript. rewrite hasScript_url, (NewRequest_GET _ Hurl).
    unfold Do. paths; reflexivity.
  - unfold fetchLatestRelease.
    rewrite fetchLatestRelease_url, (NewRequest_GET _ Hurl).
    unfold Do. paths; reflexivity.
  - unfold fetchReleaseFromTag.
    rewrite fetchReleaseFromTag_url, (NewRequest_GET _ Hurl).
    unfold Do. paths; reflexivity.
  - unfold fetchCommitSHA.
    rewrite fetchCommitSHA_url, (NewRequest_GET _ Hurl), accept_request.
    assert (Hacc : accept "application/vnd.github.VERSION.sha"
                   = {["Accept" := ["application/vnd.github.VERSION.sha"]]})
      by apply insert_empty.
    rewrite <- Hacc. unfold Do. paths; reflexivity.
Qed.

(** ** Bodies that cannot be used *)

(** X11. When the body of an accepted response breaks off, what had
    arrived is thrown away, even if it would decode: the release helpers
    return no release and [fetchCommitSHA] the empty string, each with
    the error of the read. *)
Theorem broken_body_is_discarded httpClient repo (tagName targetRef : string)
    w resp (msg : string) :
  StatusCode resp <= 299 ->
  failure (Body resp) = Some msg ->
  (urlParses (latestReleaseURL repo) = true ->
   httpClient (GET (latestReleaseURL repo) ∅) = inl resp ->
   (fetchLatestRelease httpClient repo w).1 = (None, Some (ErrRead msg)))
  /\ (urlParses (releaseByTagURL repo tagName) = true ->
      httpClient (GET (releaseByTagURL repo tagName) ∅) = inl resp ->
      (fetchReleaseFromTag httpClient repo tagName w).1
      = (None, Some (ErrRead msg)))
  /\ (urlParses (commitURL repo targetRef) = true ->
      httpClient (GET (commitURL repo targetRef)
                      (accept "application/vnd.github.VERSION.sha"))
      = inl resp ->
      (fetchCommitSHA httpClient repo targetRef w).1
      = ("", Some (ErrRead msg))).
Proof.
  intros Hle Hfail.
  assert (Hgt : (StatusCode resp >? 299) = false)
    by (destruct (Z.gtb_spec (StatusCode resp) 299); [lia | reflexivity]).
  assert (H404 : (StatusCode resp =? 404) = false) by (apply Z.eqb_neq; lia).
  assert (H422 : (StatusCode resp =? 422) = false) by (apply Z.eqb_neq; lia).
  split; [|split]; intros Hurl Hresp.
  - rewrite (fetchLatestRelease_answered _ _ _ _ Hurl Hresp), Hgt.
    unfold decoded, ReadAll. now rewrite Hfail.
  - rewrite (fetchReleaseFromTag_answered _ _ _ _ _ Hurl Hresp), H404, Hgt.
    unfold decoded, ReadAll. now rewrite Hfail.
  - rewrite (fetchCommitSHA_answered _ _ _ _ _ Hurl Hresp), H422, Hgt.
    unfold ReadAll. now rewrite Hfail.
Qed.

Lemma selectsField_pair (key : string) (v : json) :
  selectsField (key, v) = equalFold "tag_name" key || equalFold "Assets" key.
Proof. reflexivity. Qed.

(** Members that select no field may be dropped from an object. *)
Lemma fold_left_selected (members : list (string * json))
    (st : release * option error) :
  fold_left storeReleaseField members st
  = fold_left storeReleaseField (filter selectsField members) st.
Proof.
  revert st. induction members as [|[key v] members IH]; intros st;
    [reflexivity|].
  rewrite fold_left_step, IH, filter_cons.
  destruct (decide (selectsField (key, v))) as [Hsel|Hsel].
  - now rewrite fold_left_step.
  - apply Is_true_false_1 in Hsel. rewrite selectsField_pair in Hsel.
    apply orb_false_elim in Hsel as [Ht Ha].
    destruct st as [r saved].
    now rewrite (storeReleaseField_skip r saved key v Ht Ha).
Qed.

(** What the two release helpers return for an accepted response whose
    body arrives whole and is valid JSON. *)
Lemma decoded_value (resp : Response) (body : list byte) (v : json) :
  Body resp = complete body ->
  checkValid body = Some v ->
  decoded resp =
    match decodeRelease v zeroRelease None with
    | (_, Some err) => (None, Some err)
    | (r, None) => (Some r, None)
    end.
Proof.
  intros Hbody Hjson. unfold decoded, ReadAll, Unmarshal.
  rewrite Hbody. cbn [content failure complete fmap option_fmap option_map].
  now rewrite Hjson.
Qed.

(** X12. Members of the response object that name no field of [release]
    are skipped wherever they stand: if the members that do select a
    field are the tag and the assets of [r], [fetchLatestRelease] returns
    [r]. *)
Theorem unknown_members_are_skipped httpClient repo w resp (body : list byte)
    (members : list (string * json)) (r : release) :
  urlParses (latestReleaseURL repo) = true ->
  httpClient (GET (latestReleaseURL repo) ∅) = inl resp ->
  is2xx (StatusCode resp) ->
  Body resp = complete body ->
  checkValid body = Some (JObject members) ->
  JObject (filter selectsField members) = releaseJSON r ->
  (fetchLatestRelease httpClient repo w).1 = (Some r, None).
Proof.
  intros Hurl Hresp H2xx Hbody Hjson Hsel.
  rewrite (fetchLatestRelease_answered _ _ _ _ Hurl Hresp).
  destruct (is2xx_passes _ H2xx) as [_ ->].
  rewrite (decoded_value _ _ _ Hbody Hjson).
  cbn [decodeRelease]. rewrite fold_left_selected.
  change (fold_left storeReleaseField (filter selectsField members)
                    (zeroRelease, None))
    with (decodeRelease (JObject (filter selectsField members))
                        zeroRelease None).
  now rewrite Hsel, decodeRelease_releaseJSON.
Qed.

Lemma decodeAsset_upstream (a cur : releaseAsset) (saved : option error) :
  decodeAsset (upstreamAssetJSON a) cur saved = (a, saved).
Proof. destruct a as [n u]. reflexivity. Qed.

Lemma decodeElems_upstream (assets cur : list releaseAsset)
    (saved : option error) :
  decodeElems (map upstreamAssetJSON assets) cur saved = (assets, saved).
Proof.
  revert cur. induction assets as [|a assets IH]; intros cur; [reflexivity|].
  cbn [map decodeElems].
  now rewrite decodeAsset_upstream, IH.
Qed.

(** X13. The keys may be spelled as the upstream API spells them, with
    [assets] and [name] in lower case although the fields [Assets] and
    [Name] carry no tag: both release helpers return the release. *)
Theorem upstream_spelling_is_accepted httpClient repo (tagName : string) w resp
    (body : list byte) (r : release) :
  is2xx (StatusCode resp) ->
  Body resp = complete body ->
  checkValid body = Some (upstreamReleaseJSON r) ->
  (urlParses (latestReleaseURL repo) = true ->
   httpClient (GET (latestReleaseURL repo) ∅) = inl resp ->
   (fetchLatestRelease httpClient repo w).1 = (Some r, None))
  /\ (urlParses (releaseByTagURL repo tagName) = true ->
      httpClient (GET (releaseByTagURL repo tagName) ∅) = inl resp ->
      (fetchReleaseFromTag httpClient repo tagName w).1 = (Some r, None)).
Proof.
  intros H2xx Hbody Hjson.
  destruct (is2xx_passes _ H2xx) as [H404 H299].
  assert (Hdec : decoded resp = (Some r, None)).
  { rewrite (decoded_value _ _ _ Hbody Hjson).
    destruct r as [t assets].
    unfold upstreamReleaseJSON, decodeRelease. cbn [fold_left Tag Assets].
    change (storeReleaseField (zeroRelease, None) ("tag_name", JString t))
      with ({| Tag := t; Assets := [] |}, @None error).
    unfold storeReleaseField.
    change (equalFold "tag_name" "assets") with false.
    change (equalFold "Assets" "assets") with true.
    cbn [decodeAssets Tag Assets].
    now rewrite decodeElems_upstream. }
  split; intros Hurl Hresp.
  - now rewrite (fetchLatestRelease_answered _ _ _ _ Hurl Hresp), H299.
  - now rewrite (fetchReleaseFromTag_answered _ _ _ _ _ Hurl Hresp), H404, H299.
Qed.

(** X14. A valid JSON body that is not an object is a type error naming
    its kind, except [null], which leaves the release empty and is no
    error. *)
Theorem top_level_value_must_be_object httpClient repo w resp
    (body : list byte) (v : json) :
  urlParses (latestReleaseURL repo) = true ->
  httpClient (GET (latestReleaseURL repo) ∅) = inl resp ->
  is2xx (StatusCode resp) ->
  Body resp = complete body ->
  checkValid body = Some v ->
  (notObject v = true ->
   (fetchLatestRelease httpClient repo w).1
   = (None, Some (UnmarshalTypeError (valueKind v) "extension.release")))
  /\ (v = JNull ->
      (fetchLatestRelease httpClient repo w).1
      = (Some {| Tag := ""; Assets := [] |}, None)).
Proof.
  intros Hurl Hresp H2xx Hbody Hjson.
  rewrite (fetchLatestRelease_answered _ _ _ _ Hurl Hresp).
  destruct (is2xx_passes _ H2xx) as [_ ->].
  rewrite (decoded_value _ _ _ Hbody Hjson).
  split.
  - destruct v; cbn; intros Hno; try discriminate; reflexivity.
  - intros ->. reflexivity.
Qed.

(** A member that gives the tag a value of the wrong kind leaves an
    error saved, wherever it stands among the members. *)
Lemma mistyped_tag_saves_error (members : list (string * json))
    (key : string) (v : json) (st : release * option error) :
  In (key, v) members ->
  equalFold "tag_name" key = true ->
  notString v = true ->
  is_Some (fold_left storeReleaseField members st).2.
Proof.
  intros Hin Hkey Hv. revert st.
  induction members as [|m members IH]; intros st; [contradiction|].
  cbn [fold_left]. destruct Hin as [-> | Hin]; [|now apply IH].
  apply (fold_left_inv (fun saved => is_Some saved)).
  - intros st' m'. apply storeReleaseField_inv, saveError_is_Some.
  - destruct st as [r saved]. unfold storeReleaseField. rewrite Hkey.
    destruct v; try discriminate; cbn; destruct saved; cbn; eauto.
Qed.

(** X15. The fields are type-checked: if some member of the response
    object gives [tag_name] (in any spelling the decoder accepts) a
    number, a boolean, an array or an object, [fetchLatestRelease]
    returns no release and an error, whatever else the object holds. *)
Theorem mistyped_tag_is_rejected httpClient repo w resp (body : list byte)
    (members : list (string * json)) (key : string) (v : json) :
  urlParses (latestReleaseURL repo) = true ->
  httpClient (GET (latestReleaseURL repo) ∅) = inl resp ->
  is2xx (StatusCode resp) ->
  Body resp = complete body ->
  checkValid body = Some (JObject members) ->
  In (key, v) members ->
  equalFold "tag_name" key = true ->
  notString v = true ->
  exists e, (fetchLatestRelease httpClient repo w).1 = (None, Some e)
            /\ bodyError e.
Proof.
  intros Hurl Hresp H2xx Hbody Hjson Hin Hkey Hv.
  pose proof (decoded_ok resp) as Hok.
  rewrite (fetchLatestRelease_answered _ _ _ _ Hurl Hresp).
  destruct (is2xx_passes _ H2xx) as [_ ->].
  rewrite (decoded_value _ _ _ Hbody Hjson) in *.
  cbn [decodeRelease] in *.
  pose proof (mistyped_tag_saves_error members key v (zeroRelease, None)
                                       Hin Hkey Hv) as [e He].
  destruct (fold_left storeReleaseField members (zeroRelease, None))
    as [r saved]. cbn [snd] in He. subst saved.
  exists e. split; [reflexivity | now apply Hok].
Qed.

(** ** White space around the document *)

Lemma isSpace_inv (c : byte) :
  isSpace c = true -> c = x20 \/ c = x09 \/ c = x0d \/ c = x0a.
Proof. destruct c; cbn; intros Hc; try discriminate; auto. Qed.

(** A space before the end of the input changes nothing to what the end
    of the input makes of the scanner. *)
Lemma scan_space_eof (s : scanner) (c : byte) :
  isSpace c = true ->
  match scan s c with Some s' => eof s' | None => None end = eof s.
Proof.
  intros Hc.
  destruct (isSpace_inv c Hc) as [-> | [-> | [-> | ->]]];
    destruct s as [st stack]; destruct st; try reflexivity;
    destruct stack as [|[] rest]; reflexivity.
Qed.

Lemma scanAll_spaces_eof (ws : list byte) (s : scanner) :
  forallb isSpace ws = true ->
  match scanAll s ws with Some s' => eof s' | None => None end = eof s.
Proof.
  revert s. induction ws as [|c ws IH]; intros s Hws; [reflexivity|].
  cbn [forallb] in Hws. apply andb_prop in Hws as [Hc Hws].
  cbn [scanAll]. rewrite <- (scan_space_eof s c Hc).
  destruct (scan s c) as [s'|]; [now apply IH | reflexivity].
Qed.

Lemma scanAll_leading_spaces (ws body : list byte) :
  forallb isSpace ws = true ->
  scanAll (Scanner stateBeginValue []) (ws ++ body)%list
  = scanAll (Scanner stateBeginValue []) body.
Proof.
  induction ws as [|c ws IH]; intros Hws; [reflexivity|].
  cbn [forallb] in Hws. apply andb_prop in Hws as [Hc Hws].
  cbn [app scanAll]. unfold scan at 1. cbn [step]. rewrite Hc.
  now apply IH.
Qed.

Lemma checkValid_spaces (ws1 body ws2 : list byte) :
  forallb isSpace ws1 = true ->
  forallb isSpace ws2 = true ->
  checkValid (ws1 ++ body ++ ws2)%list = checkValid body.
Proof.
  intros H1 H2. unfold checkValid.
  rewrite (scanAll_leading_spaces _ _ H1), scanAll_app.
  destruct (scanAll (Scanner stateBeginValue []) body) as [s|];
    [now apply scanAll_spaces_eof | reflexivity].
Qed.

(** X16. Spaces, tabs and line ends before and after the JSON document
    make no difference to the release [fetchLatestRelease] returns, nor
    to whether it returns an error: the padded body gives the same
    release, and nil error exactly when the bare body does. *)
Theorem surrounding_space_is_ignored httpClient1 httpClient2 repo w
    (status1 status2 : Z) (ws1 body ws2 : list byte) :
  urlParses (latestReleaseURL repo) = true ->
  httpClient1 (GET (latestReleaseURL repo) ∅)
  = inl {| StatusCode := status1; Body := complete body |} ->
  httpClient2 (GET (latestReleaseURL repo) ∅)
  = inl {| StatusCode := status2;
           Body := complete (ws1 ++ body ++ ws2)%list |} ->
  is2xx status1 -> is2xx status2 ->
  forallb isSpace ws1 = true ->
  forallb isSpace ws2 = true ->
  (fetchLatestRelease httpClient2 repo w).1.1
  = (fetchLatestRelease httpClient1 repo w).1.1
  /\ ((fetchLatestRelease httpClient2 repo w).1.2 = None
      <-> (fetchLatestRelease httpClient1 repo w).1.2 = None).
Proof.
  intros Hurl Hresp1 Hresp2 Hst1 Hst2 Hws1 Hws2.
  rewrite (fetchLatestRelease_answered _ _ _ _ Hurl Hresp1).
  rewrite (fetchLatestRelease_answered _ _ _ _ Hurl Hresp2).
  cbn [StatusCode].
  destruct (is2xx_passes _ Hst1) as [_ ->].
  destruct (is2xx_passes _ Hst2) as [_ ->].
  unfold decoded, ReadAll, Unmarshal.
  cbn [Body content failure complete fmap option_fmap option_map].
  rewrite (checkValid_spaces _ _ _ Hws1 Hws2). now split.
Qed.

(** ** From a release to its asset on disk *)

(** X17. The release text written from a release with plain strings is
    read back as that release by both release helpers (writing and
    decoding are inverse). *)
Theorem rendered_release_round_trip httpClient repo (tagName : string) w
    (status : Z) (r : release) :
  is2xx status ->
  plain (Tag r) = true ->
  forallb plainAsset (Assets r) = true ->
  (urlParses (latestReleaseURL repo) = true ->
   httpClient (GET (latestReleaseURL repo) ∅)
   = inl {| StatusCode := status; Body := complete (renderRelease r) |} ->
   (fetchLatestRelease httpClient repo w).1 = (Some r, None))
  /\ (urlParses (releaseByTagURL repo tagName) = true ->
      httpClient (GET (releaseByTagURL repo tagName) ∅)
      = inl {| StatusCode := status; Body := complete (renderRelease r) |} ->
      (fetchReleaseFromTag httpClient repo tagName w).1 = (Some r, None)).
Proof.
  intros H2xx Ht Ha. split; intros Hurl Hresp.
  - exact (fetchLatestRelease_rendered _ _ _ _ _ Hurl Hresp H2xx Ht Ha).
  - exact (fetchReleaseFromTag_rendered _ _ _ _ _ _ Hurl Hresp H2xx Ht Ha).
Qed.

(** What [fetchLatestRelease] leaves behind once it has been answered. *)
Lemma fetchLatestRelease_world httpClient repo w resp :
  urlParses (latestReleaseURL repo) = true ->
  httpClient (GET (latestReleaseURL repo) ∅) = inl resp ->
  (fetchLatestRelease httpClient repo w).2
  = {| fs := fs w; sent := (sent w ++ [GET (latestReleaseURL repo) ∅])%list |}.
Proof.
  intros Hurl Hresp. unfold fetchLatestRelease.
  rewrite fetchLatestRelease_url, (NewRequest_GET _ Hurl). unfold Do.
  rewrite Hresp. paths; reflexivity.
Qed.

(** X18. Looking up the latest release and then downloading one of its
    assets: the second request goes to the URL the first response gave
    for that asset and the two requests are the only ones sent, in that
    order; when the destination opens and the device takes the bytes of
    the second response, the download returns nil error and the opened
    file holds those bytes. *)
Theorem fetch_then_download httpClient repo (destPath : string) w
    resp1 resp2 (body1 body2 : list byte) (r : release) (a : releaseAsset)
    (f : OsFile) (disk : FileSystem) :
  urlParses (latestReleaseURL repo) = true ->
  httpClient (GET (latestReleaseURL repo) ∅) = inl resp1 ->
  is2xx (StatusCode resp1) ->
  Body resp1 = complete body1 ->
  checkValid body1 = Some (releaseJSON r) ->
  In a (Assets r) ->
  urlParses (APIURL a) = true ->
  httpClient (GET (APIURL a) (accept "application/octet-stream")) = inl resp2 ->
  StatusCode resp2 <= 299 ->
  Body resp2 = complete body2 ->
  OpenFile destPath downloadFlags (oct 7 5 5) (fs w) = inl (f, disk) ->
  (length body2 <= free disk)%nat ->
  let first := fetchLatestRelease httpClient repo w in
  let second := downloadAsset httpClient a destPath first.2 in
  first.1 = (Some r, None)
  /\ second.1 = None
  /\ sent second.2
     = (sent w ++ [GET (latestReleaseURL repo) ∅;
                   GET (APIURL a) (accept "application/octet-stream")])%list
  /\ exists mode,
       nodes (fs second.2) !! target f
       = Some (Regular {| Mode := mode; Contents := body2 |}).
Proof.
  intros Hurl1 Hresp1 H2xx Hbody1 Hjson _ Hurl2 Hresp2 Hle Hbody2 Hopen Hroom.
  cbn zeta.
  rewrite (fetchLatestRelease_world _ _ _ _ Hurl1 Hresp1).
  rewrite (fetchLatestRelease_answered _ _ _ _ Hurl1 Hresp1).
  destruct (is2xx_passes _ H2xx) as [_ ->].
  split; [exact (decoded_release _ _ _ Hbody1 Hjson)|].
  set (w1 := {| fs := fs w;
                sent := (sent w ++ [GET (latestReleaseURL repo) ∅])%list |}).
  rewrite (downloadAsset_sent httpClient a destPath w1 Hurl2).
  destruct (downloadAsset_copies httpClient a destPath w1 resp2 f disk
              Hurl2 Hresp2 Hle Hopen) as [mode [_ [_ [-> ->]]]].
  rewrite Hbody2. cbn [content failure complete].
  apply Nat.leb_le in Hroom as Hfits. rewrite Hfits.
  rewrite firstn_all2 by exact Hroom.
  split; [reflexivity|]. split; [subst w1; cbn [sent]; now rewrite <- app_assoc|].
  exists mode. apply lookup_insert_eq.
Qed.

End Further.

(** ** The further properties at work on the stand-ins *)

Lemma found_and_sha_only_without_error_witness :
  (hasScript (respond testImports 200 []) testRepo testWorld).1.2 = None
  /\ (fetchCommitSHA (respond testImports 500 (text "oops")) testRepo "trunk"
                     testWorld).1.1 = "".
Proof.
  destruct (found_and_sha_only_without_error (H := testImports)
              (respond testImports 200 []) testRepo "trunk" testWorld)
    as [Hfound _].
  destruct (found_and_sha_only_without_error (H := testImports)
              (respond testImports 500 (text "oops")) testRepo "trunk"
              testWorld)
    as [_ Hsha].
  split; [apply Hfound; reflexivity|].
  apply (Hsha (ErrHTTP (H := testImports) (500, text "oops"))). reflexivity.
Defined.

Lemma transport_error_passed_on_witness :
  let e := ErrTransport (H := testImports) "connection refused" in
  let down := refuse testImports "connection refused" in
  (hasScript down testRepo testWorld).1 = (false, Some e)
  /\ (fetchLatestRelease down testRepo testWorld).1 = (None, Some e)
  /\ (fetchReleaseFromTag down testRepo "v1.0.0" testWorld).1 = (None, Some e)
  /\ (fetchCommitSHA down testRepo "trunk" testWorld).1 = ("", Some e)
  /\ (downloadAsset down testAsset "/tmp/new" testWorld).1 = Some e
  /\ fs (downloadAsset down testAsset "/tmp/new" testWorld).2 = testFS.
Proof.
  cbn zeta.
  destruct (transport_error_passed_on (H := testImports)
              (refuse testImports "connection refused") testRepo "v1.0.0"
              "trunk" testAsset "/tmp/new" testWorld
              (ErrTransport "connection refused"))
    as (H1 & H2 & H3 & H4 & H5).
  split; [apply H1; reflexivity|]. split; [apply H2; reflexivity|].
  split; [apply H3; reflexivity|]. split; [apply H4; reflexivity|].
  apply H5; reflexivity.
Defined.

Lemma unparsable_url_changes_nothing_witness :
  (hasScript (respond testImports 200 []) badRepo testWorld).2 = testWorld
  /\ (fetchLatestRelease (respond testImports 200 []) badRepo testWorld).2
     = testWorld
  /\ (fetchReleaseFromTag (respond testImports 200 []) testRepo
                          (String "010" "v1") testWorld).2 = testWorld
  /\ (fetchCommitSHA (respond testImports 200 []) testRepo
                     (String "127" "") testWorld).1.1 = ""
  /\ downloadAsset (respond testImports 200 binary) badAsset "/tmp/new"
                   testWorld
     = (Some (ErrURL (H := testImports) "parse" (APIURL badAsset)), testWorld).
Proof.
  destruct (unparsable_url_changes_nothing (H := testImports)
              (respond testImports 200 []) badRepo "v1.0.0" "trunk" badAsset
              "/tmp/new" testWorld)
    as (H1 & H2 & _).
  destruct (unparsable_url_changes_nothing (H := testImports)
              (respond testImports 200 []) testRepo (String "010" "v1")
              (String "127" "") badAsset "/tmp/new" testWorld)
    as (_ & _ & H3 & H4 & _).
  destruct (unparsable_url_changes_nothing (H := testImports)
              (respond testImports 200 binary) testRepo "v1.0.0" "trunk"
              badAsset "/tmp/new" testWorld)
    as (_ & _ & _ & _ & H5).
  split; [now rewrite H1|]. split; [now rewrite H2|].
  split; [now rewrite H3|]. split; [now rewrite H4|].
  apply H5. reflexivity.
Defined.

Lemma fetchLatestRelease_no_sentinel_witness :
  (fetchLatestRelease (respond testImports 404 (text "{'message': 'Not Found'}"))
                      testRepo testWorld).1
  = (None, Some (ErrHTTP (H := testImports)
                         (404, text "{'message': 'Not Found'}"))).
Proof.
  apply (fetchLatestRelease_no_sentinel (H := testImports)
           (respond testImports 404 (text "{'message': 'Not Found'}"))
           testRepo testWorld
           {| StatusCode := 404;
              Body := complete (text "{'message': 'Not Found'}") |});
    [reflexivity | reflexivity | cbn; lia].
Defined.

Lemma sentinel_iff_status_witness :
  (fetchReleaseFromTag (respond testImports 404 []) testRepo "v9"
                       testWorld).1.2 = Some releaseNotFoundErr
  /\ (fetchCommitSHA (respond testImports 422 []) testRepo "nope"
                     testWorld).1.2 = Some commitNotFoundErr.
Proof.
  destruct (sentinel_iff_status (H := testImports) (respond testImports 404 [])
              testRepo "v9" "nope" testWorld
              {| StatusCode := 404; Body := complete [] |})
    as [Htag _].
  destruct (sentinel_iff_status (H := testImports) (respond testImports 422 [])
              testRepo "v9" "nope" testWorld
              {| StatusCode := 422; Body := complete [] |})
    as [_ Hsha].
  split.
  - apply Htag; reflexivity.
  - apply Hsha; reflexivity.
Defined.

Lemma other_statuses_are_api_errors_witness :
  (fetchReleaseFromTag (respond testImports 422 []) testRepo "v9"
                       testWorld).1
  = (None, Some (ErrHTTP (H := testImports) (422, [])))
  /\ (fetchCommitSHA (respond testImports 404 []) testRepo "nope"
                     testWorld).1
     = ("", Some (ErrHTTP (H := testImports) (404, []))).
Proof.
  destruct (other_statuses_are_api_errors (H := testImports)
              (respond testImports 422 []) testRepo "v9" "nope" testWorld
              {| StatusCode := 422; Body := complete [] |})
    as [Htag _]; [cbn; lia|].
  destruct (other_statuses_are_api_errors (H := testImports)
              (respond testImports 404 []) testRepo "v9" "nope" testWorld
              {| StatusCode := 404; Body := complete [] |})
    as [_ Hsha]; [cbn; lia|].
  split.
  - apply Htag; [reflexivity | reflexivity | cbn; lia].
  - apply Hsha; [reflexivity | reflexivity | cbn; lia].
Defined.

Lemma hasScript_true_iff_witness :
  (hasScript (respond testImports 101 []) testRepo testWorld).1.1 = true.
Proof.
  apply (hasScript_true_iff (H := testImports) (respond testImports 101 [])
           testRepo testWorld
           {| StatusCode := 101; Body := complete [] |});
    [reflexivity | reflexivity | cbn; lia].
Defined.

Lemma request_headers_witness :
  sent (hasScript (respond testImports 200 []) testRepo testWorld).2
  = [GET "https://ghe.io/api/v3/repos/monalisa/gh-hello/contents/gh-hello" ∅]
  /\ sent (fetchCommitSHA (respond testImports 200 shaBody) testRepo "trunk"
                          testWorld).2
     = [GET "https://ghe.io/api/v3/repos/monalisa/gh-hello/commits/trunk"
            {["Accept" := ["application/vnd.github.VERSION.sha"]]}].
Proof.
  destruct (request_headers (H := testImports) (respond testImports 200 [])
              testRepo "v1.0.0" "trunk" testWorld)
    as (H1 & _).
  destruct (request_headers (H := testImports)
              (respond testImports 200 shaBody) testRepo "v1.0.0" "trunk"
              testWorld)
    as (_ & _ & _ & H4).
  split; [apply H1 | apply H4]; reflexivity.
Defined.

Lemma broken_body_is_discarded_witness :
  let resp := {| StatusCode := 200; Body := cutOff releaseBody |} in
  (fetchLatestRelease (answer testImports resp) testRepo testWorld).1
  = (None, Some (ErrRead "unexpected EOF"))
  /\ (fetchReleaseFromTag (answer testImports resp) testRepo "v1.0.0"
                          testWorld).1
     = (None, Some (ErrRead "unexpected EOF"))
  /\ (fetchCommitSHA (answer testImports resp) testRepo "trunk" testWorld).1
     = ("", Some (ErrRead "unexpected EOF")).
Proof.
  cbn zeta.
  destruct (broken_body_is_discarded (H := testImports)
              (answer testImports
                      {| StatusCode := 200; Body := cutOff releaseBody |})
              testRepo "v1.0.0" "trunk" testWorld
              {| StatusCode := 200; Body := cutOff releaseBody |}
              "unexpected EOF")
    as (H1 & H2 & H3); [cbn; lia | reflexivity |].
  split; [apply H1; reflexivity|].
  split; [apply H2 | apply H3]; reflexivity.
Defined.

Lemma unknown_members_are_skipped_witness :
  (fetchLatestRelease (respond testImports 200 paddedBody) testRepo
                      testWorld).1 = (Some testRelease, None).
Proof.
  apply (unknown_members_are_skipped (H := testImports)
           (respond testImports 200 paddedBody) testRepo testWorld
           {| StatusCode := 200; Body := complete paddedBody |}
           paddedBody paddedMembers testRelease);
    [reflexivity | reflexivity | unfold is2xx; cbn; lia
     | reflexivity | vm_compute; reflexivity | vm_compute; reflexivity].
Defined.

Lemma upstream_spelling_is_accepted_witness :
  (fetchLatestRelease (respond testImports 200 upstreamBody) testRepo
                      testWorld).1 = (Some testRelease, None)
  /\ (fetchReleaseFromTag (respond testImports 200 upstreamBody) testRepo
                          "v1.0.0" testWorld).1 = (Some testRelease, None).
Proof.
  destruct (upstream_spelling_is_accepted (H := testImports)
              (respond testImports 200 upstreamBody) testRepo "v1.0.0"
              testWorld
              {| StatusCode := 200; Body := complete upstreamBody |}
              upstreamBody testRelease)
    as [H1 H2];
    [unfold is2xx; cbn; lia | reflexivity | vm_compute; reflexivity |].
  split; [apply H1 | apply H2]; reflexivity.
Defined.

Lemma top_level_value_must_be_object_witness :
  (fetchLatestRelease (respond testImports 200 (text "[]")) testRepo
                      testWorld).1
  = (None, Some (UnmarshalTypeError "array" "extension.release"))
  /\ (fetchLatestRelease (respond testImports 200 (text "null")) testRepo
                         testWorld).1
     = (Some {| Tag := ""; Assets := [] |}, None).
Proof.
  destruct (top_level_value_must_be_object (H := testImports)
              (respond testImports 200 (text "[]")) testRepo testWorld
              {| StatusCode := 200; Body := complete (text "[]") |}
              (text "[]") (JArray []))
    as [Harr _];
    [reflexivity | reflexivity | unfold is2xx; cbn; lia | reflexivity
     | reflexivity |].
  destruct (top_level_value_must_be_object (H := testImports)
              (respond testImports 200 (text "null")) testRepo testWorld
              {| StatusCode := 200; Body := complete (text "null") |}
              (text "null") JNull)
    as [_ Hnull];
    [reflexivity | reflexivity | unfold is2xx; cbn; lia | reflexivity
     | reflexivity |].
  split; [apply Harr | apply Hnull]; reflexivity.
Defined.

Lemma mistyped_tag_is_rejected_witness :
  exists e,
    (fetchLatestRelease (respond testImports 200 mistypedBody) testRepo
                        testWorld).1 = (None, Some e)
    /\ bodyError e.
Proof.
  apply (mistyped_tag_is_rejected (H := testImports)
           (respond testImports 200 mistypedBody) testRepo testWorld
           {| StatusCode := 200; Body := complete mistypedBody |}
           mistypedBody mistypedMembers "TAG_NAME" (JNumber "7"));
    [reflexivity | reflexivity | unfold is2xx; cbn; lia | reflexivity
     | vm_compute; reflexivity | cbn; tauto | reflexivity | reflexivity].
Defined.

Lemma surrounding_space_is_ignored_witness :
  (fetchLatestRelease
     (respond testImports 200 (text "  " ++ releaseBody ++ [x0d; x0a])%list)
     testRepo testWorld).1.1
  = (fetchLatestRelease (respond testImports 200 releaseBody) testRepo
                        testWorld).1.1
  /\ ((fetchLatestRelease
         (respond testImports 200
                  (text "  " ++ releaseBody ++ [x0d; x0a])%list)
         testRepo testWorld).1.2 = None
      <-> (fetchLatestRelease (respond testImports 200 releaseBody) testRepo
                              testWorld).1.2 = None).
Proof.
  apply (surrounding_space_is_ignored (H := testImports)
           (respond testImports 200 releaseBody)
           (respond testImports 200
                    (text "  " ++ releaseBody ++ [x0d; x0a])%list)
           testRepo testWorld 200 200 (text "  ") releaseBody [x0d; x0a]);
    try reflexivity; unfold is2xx; lia.
Defined.

Lemma rendered_release_round_trip_witness :
  (fetchLatestRelease (respond testImports 200 (renderRelease testRelease))
                      testRepo testWorld).1 = (Some testRelease, None)
  /\ (fetchReleaseFromTag (respond testImports 200 (renderRelease testRelease))
                          testRepo "v1.0.0" testWorld).1
     = (Some testRelease, None).
Proof.
  destruct (rendered_release_round_trip (H := testImports)
              (respond testImports 200 (renderRelease testRelease)) testRepo
              "v1.0.0" testWorld 200 testRelease)
    as [H1 H2]; [unfold is2xx; lia | reflexivity | reflexivity |].
  split; [apply H1 | apply H2]; reflexivity.
Defined.

Lemma fetch_then_download_witness :
  let first := fetchLatestRelease testServer testRepo testWorld in
  let second := downloadAsset testServer testAsset "gh-hello" first.2 in
  first.1 = (Some testRelease, None)
  /\ second.1 = None
  /\ map URL (sent second.2)
     = ["https://ghe.io/api/v3/repos/monalisa/gh-hello/releases/latest";
        "https://ghe.io/api/v3/repos/monalisa/gh-hello/releases/assets/1"]
  /\ exists mode,
       nodes (fs second.2) !! "/tmp/gh-hello"
       = Some (Regular {| Mode := mode; Contents := binary |}).
Proof.
  cbn zeta.
  destruct (fetch_then_download (H := testImports) testServer testRepo
              "gh-hello" testWorld
              {| StatusCode := 200; Body := complete releaseBody |}
              {| StatusCode := 200; Body := complete binary |}
              releaseBody binary testRelease testAsset
              {| fname := "gh-hello"; target := "/tmp/gh-hello";
                 offset := 0 |}
              {| nodes := <["/tmp/gh-hello" :=
                              Regular {| Mode := oct 7 5 5;
                                         Contents := [] |}]>
                            (nodes testFS);
                 umask := oct 0 2 2; cwd := ["tmp"]; free := 4096 |})
    as (H1 & H2 & H3 & H4);
    [reflexivity | reflexivity | unfold is2xx; cbn; lia | reflexivity
     | vm_compute; reflexivity | cbn; tauto | reflexivity | reflexivity
     | cbn; lia | reflexivity | reflexivity
     | apply Nat.leb_le; vm_compute; reflexivity |].
  split; [exact H1|]. split; [exact H2|].
  split; [now rewrite H3 | exact H4].
Defined.

Lemma downloadAsset_interrupted_witness :
  let resp := {| StatusCode := 200; Body := cutOff (take 4 binary) |} in
  ((downloadAsset (answer testImports resp) testAsset "/tmp/new"
                  testWorld).1
   = Some (ErrRead "unexpected EOF")
   /\ exists mode,
        nodes (fs (downloadAsset (answer testImports resp) testAsset
                                 "/tmp/new" testWorld).2) !! "/tmp/new"
        = Some (Regular {| Mode := mode; Contents := take 4 binary |}))
  /\ ((downloadAsset (respond testImports 200 binary) testAsset "/tmp/new"
                     {| fs := fullFS; sent := [] |}).1
      = Some (PathError "write" "/tmp/new" "no space left on device")
      /\ exists mode,
           nodes (fs (downloadAsset (respond testImports 200 binary)
                                    testAsset "/tmp/new"
                                    {| fs := fullFS; sent := [] |}).2)
             !! "/tmp/new"
           = Some (Regular {| Mode := mode; Contents := take 3 binary |})).
Proof.
  cbn zeta. split.
  - destruct (downloadAsset_interrupted (H := testImports)
                (answer testImports
                        {| StatusCode := 200; Body := cutOff (take 4 binary) |})
                testAsset "/tmp/new" testWorld
                {| StatusCode := 200; Body := cutOff (take 4 binary) |}
                {| fname := "/tmp/new"; target := "/tmp/new"; offset := 0 |}
                {| nodes := <["/tmp/new" := Regular {| Mode := oct 7 5 5;
                                                       Contents := [] |}]>
                              (nodes testFS);
                   umask := oct 0 2 2; cwd := ["tmp"]; free := 4096 |})
      as [Hread _]; [reflexivity | reflexivity | cbn; lia | reflexivity |].
    apply Hread; [apply Nat.leb_le; vm_compute; reflexivity | reflexivity].
  - destruct (downloadAsset_interrupted (H := testImports)
                (respond testImports 200 binary) testAsset "/tmp/new"
                {| fs := fullFS; sent := [] |}
                {| StatusCode := 200; Body := complete binary |}
                {| fname := "/tmp/new"; target := "/tmp/new"; offset := 0 |}
                {| nodes := <["/tmp/new" := Regular {| Mode := oct 7 5 5;
                                                       Contents := [] |}]>
                              (nodes testFS);
                   umask := oct 0 2 2; cwd := ["tmp"]; free := 3 |})
      as [_ Hwrite]; [reflexivity | reflexivity | cbn; lia | reflexivity |].
    apply Hwrite. apply Nat.leb_gt. vm_compute. reflexivity.
Defined.

Lemma downloadAsset_other_paths_witness :
  nodes (fs (downloadAsset (respond testImports 200 binary) testAsset
                           "/tmp/./new" testWorld).2) !! "/tmp/old"
  = Some (Regular {| Mode := oct 6 4 4; Contents := text "stale" |}).
Proof.
  rewrite (downloadAsset_other_paths (H := testImports)
             (respond testImports 200 binary) testAsset "/tmp/./new"
             "/tmp/old" testWorld); [reflexivity|].
  intros f disk Hopen. vm_compute in Hopen.
  injection Hopen as <- _. discriminate.
Defined.
